(** * UART driver of the STM32F746G-Discovery port (uart_driver.cc)

    A shallow embedding of [UartDriverImpl]: the driver object, the
    peripheral registers it touches through the HAL macros, the calls it
    makes to the device manager and the signals it sends to its task.
    Every member function of the driver is a function on [System]; the
    execution contexts (interrupt, task, client calls) are interleaved at
    the granularity of whole member functions. *)

From Stdlib Require Import ZArith List Bool Lia.
Import ListNotations.
Open Scope Z_scope.

(** ** Constants of the translation unit *)

(** Bits set from the interrupt handler. *)
Definition kReceivedBit : Z := Z.shiftl 1 0.
Definition kTransmittedBit : Z := Z.shiftl 1 1.
Definition kErrorBit : Z := Z.shiftl 1 3.

Definition kRxBufferSize : Z := 511.
Definition kTxBufferSize : Z := 511.

(** Constants the translation unit takes from headers: the size of the
    staging block (uart_driver.h), the device id that marks an unbound
    driver (device_manager_api.h) and the error codes of the HAL. *)
Class Platform : Type := {
  kTxBlockSize : Z;
  kIllegalDeviceId : Z;
  HAL_UART_ERROR_PE : Z;
  HAL_UART_ERROR_NE : Z;
  HAL_UART_ERROR_FE : Z;
  HAL_UART_ERROR_ORE : Z
}.

(** [uint32_t] conversion. *)
Definition to_uint32 (x : Z) : Z := x mod 2 ^ 32.

(** ** CircularBuffer *)

Module CircularBuffer.

(** Modelled from the spec: the class CircularBuffer (circular_buffer.h)
    is not part of the sources at hand.  Section 3 of the specification
    gives a capacity N, a storage array of N+1 bytes and two cursors; the
    buffer is empty iff the cursors are equal and full iff advancing the
    write cursor would reach the read cursor. *)
Record t : Type := mk {
  capacity : Z;
  storage : list Z;
  read_cursor : Z;
  write_cursor : Z
}.

Definition create (n : Z) : t :=
  {| capacity := n;
     storage := repeat 0 (Z.to_nat (n + 1));
     read_cursor := 0;
     write_cursor := 0 |}.

Definition slots (b : t) : Z := capacity b + 1.

Definition advance (b : t) (cursor n : Z) : Z := (cursor + n) mod slots b.

Definition IsEmpty (b : t) : bool := read_cursor b =? write_cursor b.

Definition IsFull (b : t) : bool :=
  advance b (write_cursor b) 1 =? read_cursor b.

(** Bytes in transit, and the room that is left. *)
Definition available (b : t) : Z :=
  (write_cursor b - read_cursor b) mod slots b.

Definition remaining (b : t) : Z := capacity b - available b.

Fixpoint put (l : list Z) (i : nat) (x : Z) : list Z :=
  match l, i with
  | [], _ => []
  | _ :: l', O => x :: l'
  | y :: l', S i' => y :: put l' i' x
  end.

Fixpoint copy_in (b : t) (l : list Z) (cursor : Z) (data : list Z)
  : list Z :=
  match data with
  | [] => l
  | x :: data' =>
      copy_in b (put l (Z.to_nat cursor) x) (advance b cursor 1) data'
  end.

(** Modelled from the spec: [Write(data, count)] copies as many of the
    first [count] bytes of [data] as fit in the remaining capacity and
    returns the number copied (0 if full). *)
Definition Write (b : t) (data : list Z) (count : Z) : Z * t :=
  let n := Nat.min (Z.to_nat count) (Z.to_nat (remaining b)) in
  let bytes := firstn n data in
  let written := Z.of_nat (length bytes) in
  (written,
   {| capacity := capacity b;
      storage := copy_in b (storage b) (write_cursor b) bytes;
      read_cursor := read_cursor b;
      write_cursor := advance b (write_cursor b) written |}).

(** Modelled from the spec: [Read(outBuffer, maxCount)] copies up to
    [maxCount] available bytes out and advances the read cursor by that
    amount; it returns 0 if the buffer is empty.  The bytes copied out
    are returned as a list, their number is its length. *)
Definition Read (b : t) (maxCount : Z) : list Z * t :=
  let n := Nat.min (Z.to_nat maxCount) (Z.to_nat (available b)) in
  let bytes :=
    map (fun k => nth (Z.to_nat (advance b (read_cursor b) (Z.of_nat k)))
                      (storage b) 0)
        (seq 0 n) in
  (bytes,
   {| capacity := capacity b;
      storage := storage b;
      read_cursor := advance b (read_cursor b) (Z.of_nat n);
      write_cursor := write_cursor b |}).

(** The representation invariant of section 3. *)
Definition wf (b : t) : Prop :=
  0 <= capacity b /\
  0 <= read_cursor b < slots b /\
  0 <= write_cursor b < slots b /\
  Z.of_nat (length (storage b)) = slots b.

End CircularBuffer.

(** ** The peripheral, as seen through the HAL macros *)

(** Interrupt names used with the HAL macros. *)
Inductive uart_it : Type :=
| UART_IT_PE | UART_IT_ERR | UART_IT_FE | UART_IT_NE | UART_IT_ORE
| UART_IT_RXNE | UART_IT_TXE | UART_IT_TC.

Definition uart_it_eqb (a b : uart_it) : bool :=
  match a, b with
  | UART_IT_PE, UART_IT_PE | UART_IT_ERR, UART_IT_ERR
  | UART_IT_FE, UART_IT_FE | UART_IT_NE, UART_IT_NE
  | UART_IT_ORE, UART_IT_ORE | UART_IT_RXNE, UART_IT_RXNE
  | UART_IT_TXE, UART_IT_TXE | UART_IT_TC, UART_IT_TC => true
  | _, _ => false
  end.

Inductive uart_request : Type :=
| UART_RXDATA_FLUSH_REQUEST.

(** Modelled from the spec: the HAL (stm32f7xx_hal.h) is an external
    collaborator; section 6 lists what the driver needs of it: enable or
    disable a named interrupt source, ask whether a named condition is
    pending and whether its source is enabled, clear a named pending flag,
    read and write the data register, issue a receive-flush request.
    Writes to the transmit data register and requests are kept as logs,
    most recent first. *)
Record UART_HandleTypeDef : Type := {
  it_source : uart_it -> bool;
  it_pending : uart_it -> bool;
  RDR : Z;
  TDR : list Z;
  RQR : list uart_request
}.

Definition override (f : uart_it -> bool) (it : uart_it) (v : bool)
  : uart_it -> bool :=
  fun it' => if uart_it_eqb it' it then v else f it'.

Definition with_source (f : uart_it -> bool) (h : UART_HandleTypeDef)
  : UART_HandleTypeDef :=
  {| it_source := f; it_pending := it_pending h;
     RDR := RDR h; TDR := TDR h; RQR := RQR h |}.

Definition with_pending (f : uart_it -> bool) (h : UART_HandleTypeDef)
  : UART_HandleTypeDef :=
  {| it_source := it_source h; it_pending := f;
     RDR := RDR h; TDR := TDR h; RQR := RQR h |}.

Definition __HAL_UART_ENABLE_IT (h : UART_HandleTypeDef) (it : uart_it)
  : UART_HandleTypeDef :=
  with_source (override (it_source h) it true) h.

Definition __HAL_UART_DISABLE_IT (h : UART_HandleTypeDef) (it : uart_it)
  : UART_HandleTypeDef :=
  with_source (override (it_source h) it false) h.

Definition __HAL_UART_GET_IT (h : UART_HandleTypeDef) (it : uart_it) : bool :=
  it_pending h it.

Definition __HAL_UART_GET_IT_SOURCE (h : UART_HandleTypeDef) (it : uart_it)
  : bool :=
  it_source h it.

Definition __HAL_UART_CLEAR_FLAG (h : UART_HandleTypeDef) (it : uart_it)
  : UART_HandleTypeDef :=
  with_pending (override (it_pending h) it false) h.

Definition __HAL_UART_CLEAR_PEFLAG h := __HAL_UART_CLEAR_FLAG h UART_IT_PE.
Definition __HAL_UART_CLEAR_FEFLAG h := __HAL_UART_CLEAR_FLAG h UART_IT_FE.
Definition __HAL_UART_CLEAR_NEFLAG h := __HAL_UART_CLEAR_FLAG h UART_IT_NE.
Definition __HAL_UART_CLEAR_OREFLAG h := __HAL_UART_CLEAR_FLAG h UART_IT_ORE.

(** The flush request discards the received byte, which lowers the
    receive-data-available flag. *)
Definition __HAL_UART_SEND_REQ (h : UART_HandleTypeDef) (r : uart_request)
  : UART_HandleTypeDef :=
  match r with
  | UART_RXDATA_FLUSH_REQUEST =>
      {| it_source := it_source h;
         it_pending := override (it_pending h) UART_IT_RXNE false;
         RDR := RDR h; TDR := TDR h; RQR := r :: RQR h |}
  end.

(** A write to the transmit data register fills it, which lowers the
    transmit-data-empty flag until the peripheral has taken the byte. *)
Definition write_TDR (h : UART_HandleTypeDef) (byte : Z) : UART_HandleTypeDef :=
  {| it_source := it_source h;
     it_pending := override (it_pending h) UART_IT_TXE false;
     RDR := RDR h; TDR := byte :: TDR h; RQR := RQR h |}.

(** ** The driver object *)

(** The data members of [UartDriverImpl].  [uart_] always points to
    [huart1] and [tx_mutex_] serialises the task and the client calls,
    which the model runs one after the other; [signalThread_] tells
    whether the task has been created. *)
Record UartDriverImpl : Type := {
  error_ : Z;
  read_buffer_ : CircularBuffer.t;
  write_buffer_ : CircularBuffer.t;
  device_id_ : Z;
  signalThread_ : bool;
  tx_data_ : list Z;
  tx_length_ : Z;
  tx_progress_ : Z;
  tx_pending_ : bool
}.

Definition set_error_ (v : Z) (d : UartDriverImpl) : UartDriverImpl :=
  {| error_ := v; read_buffer_ := read_buffer_ d;
     write_buffer_ := write_buffer_ d; device_id_ := device_id_ d;
     signalThread_ := signalThread_ d; tx_data_ := tx_data_ d;
     tx_length_ := tx_length_ d; tx_progress_ := tx_progress_ d;
     tx_pending_ := tx_pending_ d |}.

Definition set_read_buffer_ (v : CircularBuffer.t) (d : UartDriverImpl)
  : UartDriverImpl :=
  {| error_ := error_ d; read_buffer_ := v;
     write_buffer_ := write_buffer_ d; device_id_ := device_id_ d;
     signalThread_ := signalThread_ d; tx_data_ := tx_data_ d;
     tx_length_ := tx_length_ d; tx_progress_ := tx_progress_ d;
     tx_pending_ := tx_pending_ d |}.

Definition set_write_buffer_ (v : CircularBuffer.t) (d : UartDriverImpl)
  : UartDriverImpl :=
  {| error_ := error_ d; read_buffer_ := read_buffer_ d;
     write_buffer_ := v; device_id_ := device_id_ d;
     signalThread_ := signalThread_ d; tx_data_ := tx_data_ d;
     tx_length_ := tx_length_ d; tx_progress_ := tx_progress_ d;
     tx_pending_ := tx_pending_ d |}.

Definition set_device_id_ (v : Z) (d : UartDriverImpl) : UartDriverImpl :=
  {| error_ := error_ d; read_buffer_ := read_buffer_ d;
     write_buffer_ := write_buffer_ d; device_id_ := v;
     signalThread_ := signalThread_ d; tx_data_ := tx_data_ d;
     tx_length_ := tx_length_ d; tx_progress_ := tx_progress_ d;
     tx_pending_ := tx_pending_ d |}.

Definition set_signalThread_ (v : bool) (d : UartDriverImpl) : UartDriverImpl :=
  {| error_ := error_ d; read_buffer_ := read_buffer_ d;
     write_buffer_ := write_buffer_ d; device_id_ := device_id_ d;
     signalThread_ := v; tx_data_ := tx_data_ d;
     tx_length_ := tx_length_ d; tx_progress_ := tx_progress_ d;
     tx_pending_ := tx_pending_ d |}.

Definition set_tx_data_ (v : list Z) (d : UartDriverImpl) : UartDriverImpl :=
  {| error_ := error_ d; read_buffer_ := read_buffer_ d;
     write_buffer_ := write_buffer_ d; device_id_ := device_id_ d;
     signalThread_ := signalThread_ d; tx_data_ := v;
     tx_length_ := tx_length_ d; tx_progress_ := tx_progress_ d;
     tx_pending_ := tx_pending_ d |}.

Definition set_tx_length_ (v : Z) (d : UartDriverImpl) : UartDriverImpl :=
  {| error_ := error_ d; read_buffer_ := read_buffer_ d;
     write_buffer_ := write_buffer_ d; device_id_ := device_id_ d;
     signalThread_ := signalThread_ d; tx_data_ := tx_data_ d;
     tx_length_ := v; tx_progress_ := tx_progress_ d;
     tx_pending_ := tx_pending_ d |}.

Definition set_tx_progress_ (v : Z) (d : UartDriverImpl) : UartDriverImpl :=
  {| error_ := error_ d; read_buffer_ := read_buffer_ d;
     write_buffer_ := write_buffer_ d; device_id_ := device_id_ d;
     signalThread_ := signalThread_ d; tx_data_ := tx_data_ d;
     tx_length_ := tx_length_ d; tx_progress_ := v;
     tx_pending_ := tx_pending_ d |}.

Definition set_tx_pending_ (v : bool) (d : UartDriverImpl) : UartDriverImpl :=
  {| error_ := error_ d; read_buffer_ := read_buffer_ d;
     write_buffer_ := write_buffer_ d; device_id_ := device_id_ d;
     signalThread_ := signalThread_ d; tx_data_ := tx_data_ d;
     tx_length_ := tx_length_ d; tx_progress_ := tx_progress_ d;
     tx_pending_ := v |}.

(** The constructor initialises neither the staging block nor its length
    and progress cursor; what they hold at first is given from outside. *)
Definition UartDriverImpl_new `{Platform}
  (tx_data0 : list Z) (tx_length0 tx_progress0 : Z) : UartDriverImpl :=
  {| error_ := 0;
     read_buffer_ := CircularBuffer.create kRxBufferSize;
     write_buffer_ := CircularBuffer.create kTxBufferSize;
     device_id_ := kIllegalDeviceId;
     signalThread_ := false;
     tx_data_ := tx_data0;
     tx_length_ := tx_length0;
     tx_progress_ := tx_progress0;
     tx_pending_ := false |}.

(** ** The system around the driver *)

(** Calls received by the device manager (device_manager_api.h). *)
Inductive dm_call : Type :=
| SetFlags (device_id flags : Z)
| ClearFlags (device_id flags : Z).

(** The singleton driver [uart1], the peripheral [huart1], whether the
    interrupt line [USART1_IRQn] is enabled at the NVIC, the calls made to
    the device manager and the signals sent to the task with
    [osSignalSet], both most recent first. *)
Record System : Type := {
  uart1 : UartDriverImpl;
  huart1 : UART_HandleTypeDef;
  USART1_IRQn : bool;
  devmgr : list dm_call;
  os_signals : list Z
}.

Definition on_driver (f : UartDriverImpl -> UartDriverImpl) (s : System)
  : System :=
  {| uart1 := f (uart1 s); huart1 := huart1 s; USART1_IRQn := USART1_IRQn s;
     devmgr := devmgr s; os_signals := os_signals s |}.

Definition on_uart (f : UART_HandleTypeDef -> UART_HandleTypeDef) (s : System)
  : System :=
  {| uart1 := uart1 s; huart1 := f (huart1 s); USART1_IRQn := USART1_IRQn s;
     devmgr := devmgr s; os_signals := os_signals s |}.

Definition HAL_NVIC_EnableIRQ (s : System) : System :=
  {| uart1 := uart1 s; huart1 := huart1 s; USART1_IRQn := true;
     devmgr := devmgr s; os_signals := os_signals s |}.

Definition DeviceManagerSetFlags (device_id flags : Z) (s : System) : System :=
  {| uart1 := uart1 s; huart1 := huart1 s; USART1_IRQn := USART1_IRQn s;
     devmgr := SetFlags device_id flags :: devmgr s;
     os_signals := os_signals s |}.

Definition DeviceManagerClearFlags (device_id flags : Z) (s : System)
  : System :=
  {| uart1 := uart1 s; huart1 := huart1 s; USART1_IRQn := USART1_IRQn s;
     devmgr := ClearFlags device_id flags :: devmgr s;
     os_signals := os_signals s |}.

(** Modelled from the spec: the device manager is not part of the sources
    at hand.  By section 6 the two calls tell it which conditions hold for
    a device: SetFlags raises the given bits, ClearFlags lowers them.
    [device_flags id calls] is the flag word of device [id] after [calls]. *)
Fixpoint device_flags (id : Z) (calls : list dm_call) : Z :=
  match calls with
  | [] => 0
  | SetFlags id' flags :: earlier =>
      if id' =? id then Z.lor (device_flags id earlier) flags
      else device_flags id earlier
  | ClearFlags id' flags :: earlier =>
      if id' =? id then Z.ldiff (device_flags id earlier) flags
      else device_flags id earlier
  end.

(** Status codes of the RTOS interface. *)
Inductive osStatus : Type :=
| osOK | osEventSignal | osEventMessage | osEventMail | osEventTimeout
| osErrorValue | osErrorOS.

Record osEvent : Type := {
  status : osStatus;
  signals : Z
}.

(** Modelled from the spec: by section 4.2, step 5, [osSignalSet] hands
    the bits to the waiting task and neither blocks nor fails. *)
Definition osSignalSet (flags : Z) (s : System) : osStatus * System :=
  (osOK,
   {| uart1 := uart1 s; huart1 := huart1 s; USART1_IRQn := USART1_IRQn s;
      devmgr := devmgr s; os_signals := flags :: os_signals s |}).

(** A member function either returns, leaving a system behind, or ends
    the program ([FATAL], [UNREACHABLE], a failed [ASSERT]). *)
Inductive outcome : Type :=
| Ok (s : System)
| Fatal.

(** ** Member functions of the driver *)

Section Driver.

Context {P : Platform}.

(** [UartDriverImpl::Initialize].  The two [ASSERT]s end the program
    when they fail. *)
Definition Initialize (device_id : Z) (s : System) : outcome :=
  if negb (device_id_ (uart1 s) =? kIllegalDeviceId) then Fatal
  else if device_id =? kIllegalDeviceId then Fatal
  else
    let s := on_driver (set_device_id_ device_id) s in
    let s := on_driver (set_signalThread_ true) s in
    let s := on_uart (fun h => __HAL_UART_ENABLE_IT h UART_IT_PE) s in
    let s := on_uart (fun h => __HAL_UART_ENABLE_IT h UART_IT_ERR) s in
    let s := on_uart (fun h => __HAL_UART_ENABLE_IT h UART_IT_RXNE) s in
    let s := on_uart (fun h => __HAL_UART_DISABLE_IT h UART_IT_TC) s in
    Ok (HAL_NVIC_EnableIRQ s).

(** [UartDriverImpl::DeInitialize]: [FATAL("NOT IMPLEMENTED")]. *)
Definition DeInitialize (s : System) : outcome := Fatal.

(** [UartDriverImpl::EnsureTransmission].  The bytes taken from the ring
    overwrite the front of the staging block. *)
Definition EnsureTransmission (s : System) : System :=
  if negb (tx_pending_ (uart1 s)) then
    let '(bytes, wb) :=
      CircularBuffer.Read (write_buffer_ (uart1 s)) kTxBlockSize in
    let s := on_driver (set_write_buffer_ wb) s in
    let s :=
      on_driver
        (set_tx_data_ (bytes ++ skipn (length bytes) (tx_data_ (uart1 s))))
        s in
    let s := on_driver (set_tx_length_ (Z.of_nat (length bytes))) s in
    if 0 <? tx_length_ (uart1 s) then
      let s := on_driver (set_tx_progress_ 0) s in
      let s := on_driver (set_tx_pending_ true) s in
      on_uart (fun h => __HAL_UART_ENABLE_IT h UART_IT_TXE) s
    else s
  else
    if CircularBuffer.IsFull (write_buffer_ (uart1 s)) then
      DeviceManagerClearFlags (device_id_ (uart1 s)) kTransmittedBit s
    else s.

(** [UartDriverImpl::Read]: the count returned, the bytes stored in the
    caller's buffer and the system left behind.  (The detour of the count
    through [int] changes nothing: both types are 32 bits wide.) *)
Definition Read (count : Z) (s : System) : Z * list Z * System :=
  let '(bytes, rb) := CircularBuffer.Read (read_buffer_ (uart1 s)) count in
  let c := Z.of_nat (length bytes) in
  let s := on_driver (set_read_buffer_ rb) s in
  let s :=
    if CircularBuffer.IsEmpty (read_buffer_ (uart1 s)) then
      DeviceManagerClearFlags (device_id_ (uart1 s)) kReceivedBit s
    else s in
  (c, bytes, s).

(** [UartDriverImpl::Write]. *)
Definition Write (buffer : list Z) (offset count : Z) (s : System)
  : Z * System :=
  let '(written_count, wb) :=
    CircularBuffer.Write (write_buffer_ (uart1 s))
                         (skipn (Z.to_nat offset) buffer) count in
  let s := on_driver (set_write_buffer_ wb) s in
  let s := if 0 <? written_count then EnsureTransmission s else s in
  (written_count, s).

(** [UartDriverImpl::GetError]. *)
Definition GetError (s : System) : Z * System :=
  let s' := DeviceManagerClearFlags (device_id_ (uart1 s)) kErrorBit s in
  (error_ (uart1 s'), s').

(** One turn of the loop of [UartDriverImpl::Task], for the event that
    [osSignalWait] returned. *)
Definition Task_turn (event : osEvent) (s : System) : System :=
  match status event with
  | osEventSignal =>
      let flags := to_uint32 (signals event) in
      let s :=
        if negb (Z.land flags kTransmittedBit =? 0) then EnsureTransmission s
        else s in
      DeviceManagerSetFlags (device_id_ (uart1 s)) flags s
  | _ => s
  end.

(** [UartDriverImpl::Task], for the events of a finite stretch of time. *)
Definition Task (events : list osEvent) (s : System) : System :=
  fold_left (fun s event => Task_turn event s) events s.

(** The four error blocks of the interrupt handler have one shape: test
    the condition [it] and the source [source], clear the flag, raise
    [kErrorBit] in [flags] and or [code] into [error_]. *)
Definition isr_error (it source : uart_it) (code : Z) (fs : Z * System)
  : Z * System :=
  let '(flags, s) := fs in
  if __HAL_UART_GET_IT (huart1 s) it
     && __HAL_UART_GET_IT_SOURCE (huart1 s) source
  then
    let s := on_uart (fun h => __HAL_UART_CLEAR_FLAG h it) s in
    let flags := Z.lor flags kErrorBit in
    let s := on_driver (set_error_ (Z.lor (error_ (uart1 s)) code)) s in
    (flags, s)
  else (flags, s).

(** The block for an incoming character. *)
Definition isr_receive (fs : Z * System) : Z * System :=
  let '(flags, s) := fs in
  if __HAL_UART_GET_IT (huart1 s) UART_IT_RXNE
     && __HAL_UART_GET_IT_SOURCE (huart1 s) UART_IT_RXNE
  then
    let byte := Z.land (RDR (huart1 s)) 255 in
    let '(_, rb) := CircularBuffer.Write (read_buffer_ (uart1 s)) [byte] 1 in
    let s := on_driver (set_read_buffer_ rb) s in
    let s :=
      on_uart (fun h => __HAL_UART_SEND_REQ h UART_RXDATA_FLUSH_REQUEST) s in
    (Z.lor flags kReceivedBit, s)
  else (flags, s).

(** The block for an empty transmit data register.  (The read of
    [tx_data_] is within the block whenever the handler gets here, see
    [staging_invariant].) *)
Definition isr_transmit (fs : Z * System) : Z * System :=
  let '(flags, s) := fs in
  if __HAL_UART_GET_IT (huart1 s) UART_IT_TXE
     && __HAL_UART_GET_IT_SOURCE (huart1 s) UART_IT_TXE
  then
    if tx_progress_ (uart1 s) <? tx_length_ (uart1 s) then
      let byte := nth (Z.to_nat (tx_progress_ (uart1 s))) (tx_data_ (uart1 s)) 0 in
      let s := on_driver (set_tx_progress_ (tx_progress_ (uart1 s) + 1)) s in
      (flags, on_uart (fun h => write_TDR h byte) s)
    else
      let s := on_uart (fun h => __HAL_UART_DISABLE_IT h UART_IT_TXE) s in
      (Z.lor flags kTransmittedBit, on_driver (set_tx_pending_ false) s)
  else (flags, s).

(** The end of the handler: the transmission-complete block and the
    signal to the listening thread. *)
Definition isr_finish (fs : Z * System) : outcome :=
  let '(flags, s) := fs in
  if __HAL_UART_GET_IT (huart1 s) UART_IT_TC
     && __HAL_UART_GET_IT_SOURCE (huart1 s) UART_IT_TC
  then Fatal
  else if negb (flags =? 0) then
    let '(result, s) := osSignalSet flags s in
    match result with
    | osOK => Ok s
    | _ => Fatal
    end
  else Ok s.

(** [UartDriverImpl::InterruptHandler]. *)
Definition InterruptHandler (s : System) : outcome :=
  let fs := (0, s) in
  let fs := isr_error UART_IT_PE UART_IT_PE HAL_UART_ERROR_PE fs in
  let fs := isr_error UART_IT_FE UART_IT_ERR HAL_UART_ERROR_FE fs in
  let fs := isr_error UART_IT_NE UART_IT_ERR HAL_UART_ERROR_NE fs in
  let fs := isr_error UART_IT_ORE UART_IT_ERR HAL_UART_ERROR_ORE fs in
  let fs := isr_receive fs in
  let fs := isr_transmit fs in
  isr_finish fs.

Definition USART1_IRQHandler (s : System) : outcome := InterruptHandler s.

(** ** Runs of the system *)

(** What can happen to an initialised driver: a client call, a wake of
    the task, a call of [EnsureTransmission], an interrupt, or the
    peripheral changing its status flags and its receive register (the
    interrupt enable bits are written by software only).

    Each is one step.  The mutex makes the task and the client calls
    exclude each other.  The handler can cut into them: it shares the
    receive ring with [Read], which the ring is built for (one writer,
    one reader, section 5 of the specification), and the staging block
    with [EnsureTransmission], which touches it only while the
    transmit-empty source is disabled and the handler therefore keeps
    away from it; enabling that source is the last thing it does. *)
Inductive operation : Type :=
| CallRead (count : Z)
| CallWrite (buffer : list Z) (offset count : Z)
| CallGetError
| Wake (event : osEvent)
| CallEnsureTransmission
| Interrupt
| Hardware (pending : uart_it -> bool) (rdr : Z).

Definition hardware_event (pending : uart_it -> bool) (rdr : Z) (s : System)
  : System :=
  on_uart (fun h =>
             {| it_source := it_source h; it_pending := pending;
                RDR := rdr; TDR := TDR h; RQR := RQR h |}) s.

Definition run_op (o : operation) (s : System) : outcome :=
  match o with
  | CallRead count => Ok (snd (Read count s))
  | CallWrite buffer offset count => Ok (snd (Write buffer offset count s))
  | CallGetError => Ok (snd (GetError s))
  | Wake event => Ok (Task_turn event s)
  | CallEnsureTransmission => Ok (EnsureTransmission s)
  | Interrupt => USART1_IRQHandler s
  | Hardware pending rdr => Ok (hardware_event pending rdr s)
  end.

Fixpoint run (ops : list operation) (s : System) : outcome :=
  match ops with
  | [] => Ok s
  | o :: ops' =>
      match run_op o s with
      | Ok s' => run ops' s'
      | Fatal => Fatal
      end
  end.

(** The system before [Initialize]: a freshly constructed driver next to
    a peripheral in some state. *)
Definition boot (h : UART_HandleTypeDef)
  (tx_data0 : list Z) (tx_length0 tx_progress0 : Z) : System :=
  {| uart1 := UartDriverImpl_new tx_data0 tx_length0 tx_progress0;
     huart1 := h; USART1_IRQn := false; devmgr := []; os_signals := [] |}.

(** [reachable s0 s]: [s] is reached from [s0] by some run. *)
Definition reachable (s0 s : System) : Prop :=
  exists ops, run ops s0 = Ok s.

End Driver.

(** ** Properties under study *)

(** What the driver keeps true of the staging block: the pending flag
    mirrors the transmit-empty interrupt source, and while a transmission
    is pending the progress cursor stays within the block that was
    loaded, which is not empty and not larger than the staging block. *)
Definition staging_invariant `{Platform} (s : System) : Prop :=
  tx_pending_ (uart1 s) = it_source (huart1 s) UART_IT_TXE /\
  (tx_pending_ (uart1 s) = true ->
   0 <= tx_progress_ (uart1 s) <= tx_length_ (uart1 s) /\
   0 < tx_length_ (uart1 s) <= kTxBlockSize).

(** The invariant as section 3 of the specification words it: the
    progress cursor never exceeds the length, and a transmission is
    pending iff the staging block has unsent bytes and the transmit-empty
    interrupt source is enabled. *)
Definition spec_staging_invariant (s : System) : Prop :=
  tx_progress_ (uart1 s) <= tx_length_ (uart1 s) /\
  (tx_pending_ (uart1 s) = true <->
   tx_progress_ (uart1 s) < tx_length_ (uart1 s) /\
   it_source (huart1 s) UART_IT_TXE = true).

(** Going from [s] to [s'] issued one clear of the bits [flags] for the
    driver's device, and nothing else, at the device manager. *)
Definition clear_issued (flags : Z) (s s' : System) : Prop :=
  devmgr s' = ClearFlags (device_id_ (uart1 s)) flags :: devmgr s.

(** The receive buffer went from non-empty to empty between [s] and [s']. *)
Definition rx_drained (s s' : System) : Prop :=
  CircularBuffer.IsEmpty (read_buffer_ (uart1 s)) = false /\
  CircularBuffer.IsEmpty (read_buffer_ (uart1 s')) = true.

(** Both ring buffers are well formed. *)
Definition buffers_wf (s : System) : Prop :=
  CircularBuffer.wf (read_buffer_ (uart1 s)) /\
  CircularBuffer.wf (write_buffer_ (uart1 s)).

(** The error codes the handler may or into [error_]. *)
Definition error_codes `{Platform} : list Z :=
  [HAL_UART_ERROR_PE; HAL_UART_ERROR_FE; HAL_UART_ERROR_NE;
   HAL_UART_ERROR_ORE].

(** The state after the four error blocks, in terms of the state before. *)
Definition after_errors (e : Z) (p : uart_it -> bool) (s : System) : System :=
  on_driver (set_error_ e) (on_uart (with_pending p) s).

(** What holds of the local [flags] and of the system after some of the
    error blocks of the handler, entered in [s]: the system is
    [after_errors e p s], where [e] is [error_] with some error codes
    or-ed in and [p] agrees with the status flags of [s] on the three
    conditions of the later blocks. *)
Definition error_phase `{Platform} (s : System) (fs : Z * System) : Prop :=
  exists e p codes,
    snd fs = after_errors e p s /\
    (fst fs = 0 \/ fst fs = kErrorBit) /\
    p UART_IT_RXNE = it_pending (huart1 s) UART_IT_RXNE /\
    p UART_IT_TXE = it_pending (huart1 s) UART_IT_TXE /\
    p UART_IT_TC = it_pending (huart1 s) UART_IT_TC /\
    incl codes error_codes /\
    e = fold_left Z.lor codes (error_ (uart1 s)).

(** ** A concrete board, for examples *)

(** Header constants as the STM32F7 HAL and a staging block of ten bytes
    have them. *)
Definition board : Platform :=
  {| kTxBlockSize := 10;
     kIllegalDeviceId := 4294967295;
     HAL_UART_ERROR_PE := 1;
     HAL_UART_ERROR_NE := 2;
     HAL_UART_ERROR_FE := 4;
     HAL_UART_ERROR_ORE := 8 |}.

(** The peripheral with nothing enabled and nothing pending. *)
Definition huart_reset : UART_HandleTypeDef :=
  {| it_source := fun _ => false; it_pending := fun _ => false;
     RDR := 0; TDR := []; RQR := [] |}.

(** The status flags with exactly the given conditions pending. *)
Definition raised (its : list uart_it) : uart_it -> bool :=
  fun it => existsb (uart_it_eqb it) its.

Definition or_else (o : outcome) (s : System) : System :=
  match o with
  | Ok s' => s'
  | Fatal => s
  end.

Definition board_boot : System :=
  @boot board huart_reset (repeat 0 10) 0 0.

(** [Initialize(42)]. *)
Definition board_ready : System :=
  or_else (@Initialize board 42 board_boot) board_boot.

(** One byte written by a client: it sits in the staging block and the
    transmit-empty interrupt is enabled. *)
Definition board_sending : System :=
  snd (@Write board [170] 0 1 board_ready).

(** The peripheral took that byte. *)
Definition last_byte_out : list operation :=
  [CallWrite [170] 0 1; Hardware (raised [UART_IT_TXE]) 0; Interrupt].

(** The task is woken with the transmitted bit. *)
Definition transmitted_event : osEvent :=
  {| status := osEventSignal; signals := kTransmittedBit |}.

(** ... and then reported an empty transmit register once more, which
    woke the task with the transmitted bit. *)
Definition block_done : list operation :=
  last_byte_out ++
  [Hardware (raised [UART_IT_TXE]) 0; Interrupt; Wake transmitted_event].

Definition board_last_byte_out : System :=
  or_else (@run board last_byte_out board_ready) board_ready.

Definition board_block_done : System :=
  or_else (@run board block_done board_ready) board_ready.

(** One byte waits in the transmit ring, nothing is being sent. *)
Definition board_queued : System :=
  on_driver
    (set_write_buffer_
       (snd (CircularBuffer.Write (CircularBuffer.create kTxBufferSize)
                                  [170] 1)))
    board_ready.

(** A client wrote 600 bytes: 511 were taken, ten of them are staged. *)
Definition board_backlog : System :=
  snd (@Write board (repeat 170 600%nat) 0 600 board_ready).

(** Twenty more bytes were offered to the transmit ring, which is full
    now, while the staged block is still going out. *)
Definition board_tx_full : System :=
  on_driver
    (set_write_buffer_
       (snd (CircularBuffer.Write (write_buffer_ (uart1 board_backlog))
                                  (repeat 170 20%nat) 20)))
    board_backlog.

(** The peripheral reports a parity error. *)
Definition board_parity : System :=
  hardware_event (raised [UART_IT_PE]) 0 board_ready.

(** The handler has seen the parity error. *)
Definition board_parity_seen : System :=
  or_else (@run_op board Interrupt board_parity) board_parity.

(** The staged byte can go out: the transmit data register is empty. *)
Definition board_txe : System :=
  hardware_event (raised [UART_IT_TXE]) 0 board_sending.

(** The transmit data register is empty again after the last byte. *)
Definition board_txe_again : System :=
  hardware_event (raised [UART_IT_TXE]) 0 board_last_byte_out.

(** The peripheral holds a received byte. *)
Definition board_byte_in : System :=
  hardware_event (raised [UART_IT_RXNE]) 65 board_ready.

(** The handler has stored that byte. *)
Definition board_received : System :=
  or_else (@run_op board Interrupt board_byte_in) board_byte_in.

(** A receive buffer that holds 511 bytes. *)
Definition board_rx_full : System :=
  on_driver
    (set_read_buffer_
       (snd (CircularBuffer.Write (CircularBuffer.create kRxBufferSize)
                                  (repeat 7 511) 511)))
    board_ready.

(** ... while the peripheral holds one more byte. *)
Definition board_rx_overrun : System :=
  hardware_event (raised [UART_IT_RXNE]) 66 board_rx_full.

(** ** The rings as queues and the bytes on their way *)

(** The bytes a ring holds, oldest first. *)
Definition ring_contents (b : CircularBuffer.t) : list Z :=
  map (fun k =>
         nth (Z.to_nat (CircularBuffer.advance b (CircularBuffer.read_cursor b)
                                               (Z.of_nat k)))
             (CircularBuffer.storage b) 0)
      (seq 0 (Z.to_nat (CircularBuffer.available b))).

(** [flags |= code] under a condition, as the blocks of the handler do
    it. *)
Definition lor_if (c : bool) (code e : Z) : Z := if c then Z.lor e code else e.

(** The test at the head of a block of the handler, on entry: the
    condition [it] is pending and the source [source] is enabled. *)
Definition serviced (s : System) (it source : uart_it) : bool :=
  __HAL_UART_GET_IT (huart1 s) it && __HAL_UART_GET_IT_SOURCE (huart1 s) source.

(** [tx_progress_ < tx_length_]. *)
Definition unsent (s : System) : bool :=
  tx_progress_ (uart1 s) <? tx_length_ (uart1 s).

(** The value of the local [flags] at the end of the handler entered in
    [s], accumulated block by block. *)
Definition handler_flags (s : System) : Z :=
  lor_if (serviced s UART_IT_TXE UART_IT_TXE && negb (unsent s)) kTransmittedBit
    (lor_if (serviced s UART_IT_RXNE UART_IT_RXNE) kReceivedBit
       (lor_if (serviced s UART_IT_ORE UART_IT_ERR) kErrorBit
          (lor_if (serviced s UART_IT_NE UART_IT_ERR) kErrorBit
             (lor_if (serviced s UART_IT_FE UART_IT_ERR) kErrorBit
                (lor_if (serviced s UART_IT_PE UART_IT_PE) kErrorBit 0))))).

(** The value of [error_] at the end of the handler entered in [s]. *)
Definition handler_error `{Platform} (s : System) : Z :=
  lor_if (serviced s UART_IT_ORE UART_IT_ERR) HAL_UART_ERROR_ORE
    (lor_if (serviced s UART_IT_NE UART_IT_ERR) HAL_UART_ERROR_NE
       (lor_if (serviced s UART_IT_FE UART_IT_ERR) HAL_UART_ERROR_FE
          (lor_if (serviced s UART_IT_PE UART_IT_PE) HAL_UART_ERROR_PE
             (error_ (uart1 s))))).

(** The status flags the handler entered in [s] lowers: those of the
    error conditions it clears, the receive flag through the flush
    request and the transmit flag through the write of a byte. *)
Definition lowered (s : System) (it : uart_it) : bool :=
  match it with
  | UART_IT_PE => serviced s UART_IT_PE UART_IT_PE
  | UART_IT_FE => serviced s UART_IT_FE UART_IT_ERR
  | UART_IT_NE => serviced s UART_IT_NE UART_IT_ERR
  | UART_IT_ORE => serviced s UART_IT_ORE UART_IT_ERR
  | UART_IT_RXNE => serviced s UART_IT_RXNE UART_IT_RXNE
  | UART_IT_TXE => serviced s UART_IT_TXE UART_IT_TXE && unsent s
  | _ => false
  end.

(** The bytes of the staging block that the handler has still to send. *)
Definition staged (s : System) : list Z :=
  if tx_pending_ (uart1 s) then
    skipn (Z.to_nat (tx_progress_ (uart1 s)))
          (firstn (Z.to_nat (tx_length_ (uart1 s))) (tx_data_ (uart1 s)))
  else [].

(** The transmit path: the bytes written to the transmit data register,
    oldest first, then the staged ones, then the transmit ring. *)
Definition tx_stream (s : System) : list Z :=
  rev (TDR (huart1 s)) ++ staged s ++ ring_contents (write_buffer_ (uart1 s)).

(** The bytes that an operation run in [s] takes over from a client:
    those a [Write] accepts. *)
Definition accepted `{Platform} (o : operation) (s : System) : list Z :=
  match o with
  | CallWrite buffer offset count =>
      firstn (Z.to_nat (fst (Write buffer offset count s)))
             (skipn (Z.to_nat offset) buffer)
  | _ => []
  end.

(** The bytes that an operation run in [s] hands to a client: those a
    [Read] returns. *)
Definition delivered (o : operation) (s : System) : list Z :=
  match o with
  | CallRead count => snd (fst (Read count s))
  | _ => []
  end.

(** The byte that an operation run in [s] stores in the receive ring: the
    one the handler reads from the receive data register when it services
    a received character and the ring has room. *)
Definition arrived (o : operation) (s : System) : list Z :=
  match o with
  | Interrupt =>
      if serviced s UART_IT_RXNE UART_IT_RXNE
         && negb (CircularBuffer.IsFull (read_buffer_ (uart1 s)))
      then [Z.land (RDR (huart1 s)) 255]
      else []
  | _ => []
  end.

(** What [f] collects along a run, in the order of the operations. *)
Fixpoint along `{Platform} (f : operation -> System -> list Z)
  (ops : list operation) (s : System) : list Z :=
  match ops with
  | [] => []
  | o :: ops' =>
      f o s ++ match run_op o s with
               | Ok s' => along f ops' s'
               | Fatal => []
               end
  end.

(** What every run of an initialised driver keeps: well-formed rings, the
    invariant of the staging block and its size. *)
Definition driver_ok `{Platform} (s : System) : Prop :=
  buffers_wf s /\
  staging_invariant s /\
  Z.of_nat (length (tx_data_ (uart1 s))) = kTxBlockSize.

(** The flag words of the [SetFlags] calls in a log. *)
Fixpoint set_calls (calls : list dm_call) : list Z :=
  match calls with
  | [] => []
  | SetFlags _ flags :: earlier => flags :: set_calls earlier
  | ClearFlags _ _ :: earlier => set_calls earlier
  end.

(** What the task forwards for an event. *)
Definition forwarded (event : osEvent) : list Z :=
  match status event with
  | osEventSignal => [to_uint32 (signals event)]
  | _ => []
  end.

(** The bytes 1 to 12. *)
Definition count_up : list Z := map Z.of_nat (seq 1 12).

(** The peripheral asks [n] times for a byte. *)
Definition pump (n : nat) : list operation :=
  concat (repeat [Hardware (raised [UART_IT_TXE]) 0; Interrupt] n).

(** A client writes twelve bytes; ten go out and the handler finds the
    block done. *)
Definition send_twelve : list operation := CallWrite count_up 0 12 :: pump 11.

Definition board_reload : System :=
  or_else (@run board send_twelve board_ready) board_ready.

(** ... then the task is woken and one more byte goes out. *)
Definition send_and_reload : list operation :=
  send_twelve ++ [Wake transmitted_event] ++ pump 1.

Definition board_reloaded : System :=
  or_else (@run board send_and_reload board_ready) board_ready.

(** Two bytes arrive and a client reads one. *)
Definition two_bytes_in : list operation :=
  [Hardware (raised [UART_IT_RXNE]) 65; Interrupt;
   Hardware (raised [UART_IT_RXNE]) 66; Interrupt; CallRead 1].

Definition board_two_bytes : System :=
  or_else (@run board two_bytes_in board_ready) board_ready.

(** A client offers 600 bytes and then 20 more. *)
Definition two_writes : list operation :=
  [CallWrite (repeat 170 600%nat) 0 600; CallWrite (repeat 171 20%nat) 0 20].

Definition board_two_writes : System :=
  or_else (@run board two_writes board_ready) board_ready.

(** * Proofs *)

(** ** Bit tests *)

Lemma land_bit_is_zero (x n : Z) :
  0 <= n -> (Z.land x (Z.shiftl 1 n) =? 0) = negb (Z.testbit x n).
Proof.
  intros Hn. rewrite Z.shiftl_1_l.
  destruct (Z.testbit x n) eqn:E; simpl.
  - apply Z.eqb_neq. intros H.
    assert (Hb : Z.testbit (Z.land x (2 ^ n)) n = true)
      by (rewrite Z.land_spec, E, Z.pow2_bits_true; auto).
    rewrite H, Z.bits_0 in Hb. discriminate.
  - apply Z.eqb_eq, Z.bits_inj'. intros m _.
    rewrite Z.land_spec, Z.bits_0, Z.pow2_bits_eqb by assumption.
    destruct (Z.eqb_spec n m) as [->|_].
    + rewrite E. reflexivity.
    + apply andb_false_r.
Qed.

Lemma fold_lor_keeps_bits (codes : list Z) (e n : Z) :
  Z.testbit e n = true -> Z.testbit (fold_left Z.lor codes e) n = true.
Proof.
  revert e. induction codes as [|c codes IH]; intros e He; simpl.
  - exact He.
  - apply IH. rewrite Z.lor_spec, He. reflexivity.
Qed.

(** ** The ring buffer *)

Lemma cb_advance_0 (b : CircularBuffer.t) (c : Z) :
  0 <= c < CircularBuffer.slots b -> CircularBuffer.advance b c 0 = c.
Proof.
  intros Hc. unfold CircularBuffer.advance.
  rewrite Z.add_0_r. apply Z.mod_small. exact Hc.
Qed.

Lemma cb_advance_range (b : CircularBuffer.t) (c n : Z) :
  0 <= CircularBuffer.capacity b ->
  0 <= CircularBuffer.advance b c n < CircularBuffer.slots b.
Proof.
  intros Hc. unfold CircularBuffer.advance, CircularBuffer.slots.
  apply Z.mod_pos_bound. lia.
Qed.

Lemma cb_available_empty (b : CircularBuffer.t) :
  CircularBuffer.IsEmpty b = true -> CircularBuffer.available b = 0.
Proof.
  unfold CircularBuffer.IsEmpty, CircularBuffer.available. intros H.
  apply Z.eqb_eq in H. rewrite H, Z.sub_diag. apply Zmod_0_l.
Qed.

Lemma cb_available_range (b : CircularBuffer.t) :
  CircularBuffer.wf b ->
  0 <= CircularBuffer.available b <= CircularBuffer.capacity b.
Proof.
  intros (Hc & _). unfold CircularBuffer.available.
  assert (H : 0 < CircularBuffer.slots b) by (unfold CircularBuffer.slots; lia).
  pose proof (Z.mod_pos_bound
                (CircularBuffer.write_cursor b - CircularBuffer.read_cursor b)
                _ H) as Hm.
  unfold CircularBuffer.slots in *. lia.
Qed.

Lemma cb_available_full (b : CircularBuffer.t) :
  CircularBuffer.wf b -> CircularBuffer.IsFull b = true ->
  CircularBuffer.available b = CircularBuffer.capacity b.
Proof.
  intros (Hc & Hr & Hw & _) H.
  unfold CircularBuffer.IsFull, CircularBuffer.advance in H.
  apply Z.eqb_eq in H. unfold CircularBuffer.available.
  unfold CircularBuffer.slots in *.
  set (n := CircularBuffer.capacity b + 1) in *.
  destruct (Z.eq_dec (CircularBuffer.write_cursor b + 1) n) as [E|E].
  - rewrite E, Z_mod_same_full in H. rewrite <- H, Z.sub_0_r.
    rewrite Z.mod_small; lia.
  - rewrite Z.mod_small in H by lia.
    symmetry. apply (Z.mod_unique_pos _ _ (-1)); lia.
Qed.

Lemma cb_Read_length (b : CircularBuffer.t) (n : Z) :
  length (fst (CircularBuffer.Read b n)) =
  Nat.min (Z.to_nat n) (Z.to_nat (CircularBuffer.available b)).
Proof.
  unfold CircularBuffer.Read. simpl. rewrite length_map, length_seq.
  reflexivity.
Qed.

Lemma cb_Read_empty (b : CircularBuffer.t) (n : Z) :
  CircularBuffer.IsEmpty b = true -> fst (CircularBuffer.Read b n) = [].
Proof.
  intros H. apply length_zero_iff_nil.
  rewrite cb_Read_length, (cb_available_empty b H). apply Nat.min_0_r.
Qed.

(** A read leaves the buffer empty exactly when it took all that was
    there. *)
Lemma cb_Read_drains (b : CircularBuffer.t) (n : Z) :
  CircularBuffer.wf b ->
  CircularBuffer.IsEmpty (snd (CircularBuffer.Read b n)) = true <->
  CircularBuffer.available b <= Z.max 0 n.
Proof.
  intros Hwf. pose proof (cb_available_range b Hwf) as Ha.
  destruct Hwf as (Hc & Hr & Hw & _).
  unfold CircularBuffer.Read, CircularBuffer.IsEmpty. simpl.
  rewrite Z.eqb_eq. unfold CircularBuffer.advance.
  unfold CircularBuffer.available, CircularBuffer.slots in *.
  set (m := CircularBuffer.capacity b + 1) in *.
  set (r := CircularBuffer.read_cursor b) in *.
  set (w := CircularBuffer.write_cursor b) in *.
  set (k := Z.of_nat (Nat.min (Z.to_nat n) (Z.to_nat ((w - r) mod m)))).
  assert (Hk : 0 <= k <= (w - r) mod m) by lia.
  assert (Hkn : k = (w - r) mod m <-> (w - r) mod m <= Z.max 0 n) by lia.
  rewrite <- Hkn. clear Hkn.
  destruct (Z_le_gt_dec r w) as [Hle|Hgt].
  - rewrite (Z.mod_small (w - r)) in * by lia.
    rewrite (Z.mod_small (r + k)) by lia. lia.
  - assert (Hm : (w - r) mod m = w - r + m)
      by (symmetry; apply (Z.mod_unique_pos _ _ (-1)); lia).
    rewrite Hm in *.
    destruct (Z_lt_ge_dec (r + k) m) as [Hs|Hs].
    + rewrite (Z.mod_small (r + k)) by lia. lia.
    + assert (Hq : (r + k) mod m = r + k - m)
        by (symmetry; apply (Z.mod_unique_pos _ _ 1); lia).
      rewrite Hq. lia.
Qed.

Lemma cb_put_length (l : list Z) (i : nat) (x : Z) :
  length (CircularBuffer.put l i x) = length l.
Proof.
  revert i. induction l as [|y l IH]; intros [|i]; simpl; auto.
Qed.

Lemma cb_copy_in_length (b : CircularBuffer.t) (data l : list Z) (c : Z) :
  length (CircularBuffer.copy_in b l c data) = length l.
Proof.
  revert l c. induction data as [|x data IH]; intros l c; simpl.
  - reflexivity.
  - rewrite IH. apply cb_put_length.
Qed.

Lemma cb_Write_full (b : CircularBuffer.t) (data : list Z) (count : Z) :
  CircularBuffer.wf b -> CircularBuffer.IsFull b = true ->
  CircularBuffer.Write b data count = (0, b).
Proof.
  intros Hwf Hfull. unfold CircularBuffer.Write, CircularBuffer.remaining.
  rewrite (cb_available_full b Hwf Hfull), Z.sub_diag.
  simpl Z.to_nat. rewrite Nat.min_0_r. simpl.
  rewrite cb_advance_0 by apply Hwf.
  destruct b; reflexivity.
Qed.

Lemma cb_wf_create (n : Z) : 0 <= n -> CircularBuffer.wf (CircularBuffer.create n).
Proof.
  intros Hn. unfold CircularBuffer.wf, CircularBuffer.slots. simpl.
  rewrite repeat_length. lia.
Qed.

Lemma cb_wf_Read (b : CircularBuffer.t) (n : Z) :
  CircularBuffer.wf b -> CircularBuffer.wf (snd (CircularBuffer.Read b n)).
Proof.
  intros (Hc & Hr & Hw & Hl).
  pose proof (cb_advance_range b (CircularBuffer.read_cursor b)
                (Z.of_nat (Nat.min (Z.to_nat n)
                             (Z.to_nat (CircularBuffer.available b)))) Hc).
  unfold CircularBuffer.wf, CircularBuffer.slots in *. simpl. lia.
Qed.

Lemma cb_wf_Write (b : CircularBuffer.t) (data : list Z) (count : Z) :
  CircularBuffer.wf b -> CircularBuffer.wf (snd (CircularBuffer.Write b data count)).
Proof.
  intros (Hc & Hr & Hw & Hl).
  unfold CircularBuffer.Write. simpl.
  match goal with
  | |- CircularBuffer.wf {| CircularBuffer.write_cursor :=
                              CircularBuffer.advance _ _ ?k |} =>
      pose proof (cb_advance_range b (CircularBuffer.write_cursor b) k Hc)
  end.
  unfold CircularBuffer.wf, CircularBuffer.slots in *. simpl.
  rewrite cb_copy_in_length. lia.
Qed.

(** ** What each member function leaves alone *)

Opaque CircularBuffer.Read CircularBuffer.Write.

Section DriverFacts.

Context {P : Platform}.

Lemma uart_it_eqb_eq (a b : uart_it) : uart_it_eqb a b = true <-> a = b.
Proof.
  destruct a, b; simpl; split; intros H; try reflexivity; discriminate.
Qed.

(** [EnsureTransmission] touches the transmit side only. *)
Lemma EnsureTransmission_frame (s : System) :
  let s' := EnsureTransmission s in
  error_ (uart1 s') = error_ (uart1 s) /\
  read_buffer_ (uart1 s') = read_buffer_ (uart1 s) /\
  device_id_ (uart1 s') = device_id_ (uart1 s) /\
  signalThread_ (uart1 s') = signalThread_ (uart1 s) /\
  (forall it, it <> UART_IT_TXE ->
              it_source (huart1 s') it = it_source (huart1 s) it) /\
  it_pending (huart1 s') = it_pending (huart1 s) /\
  RDR (huart1 s') = RDR (huart1 s) /\
  TDR (huart1 s') = TDR (huart1 s) /\
  RQR (huart1 s') = RQR (huart1 s) /\
  USART1_IRQn s' = USART1_IRQn s /\
  os_signals s' = os_signals s.
Proof.
  unfold EnsureTransmission.
  destruct (tx_pending_ (uart1 s)); simpl.
  - destruct (CircularBuffer.IsFull _); simpl; repeat split; reflexivity.
  - destruct (CircularBuffer.Read _ _) as [bytes wb]. simpl.
    destruct (0 <? _); simpl; repeat split; try reflexivity.
    intros it Hit. unfold override.
    destruct (uart_it_eqb it UART_IT_TXE) eqn:E; [|reflexivity].
    apply uart_it_eqb_eq in E. contradiction.
Qed.

(** [EnsureTransmission] makes no [SetFlags] call. *)
Lemma set_calls_EnsureTransmission (s : System) :
  set_calls (devmgr (EnsureTransmission s)) = set_calls (devmgr s).
Proof.
  unfold EnsureTransmission. destruct (tx_pending_ (uart1 s)); simpl.
  - destruct (CircularBuffer.IsFull _); reflexivity.
  - destruct (CircularBuffer.Read _ _) as [bytes wb]. simpl.
    destruct (0 <? _); reflexivity.
Qed.

(** The error blocks of the handler only add codes to [error_], lower
    error flags of the peripheral and raise [kErrorBit]. *)
Lemma error_phase_start (s : System) : error_phase s (0, s).
Proof.
  exists (error_ (uart1 s)), (it_pending (huart1 s)), [].
  repeat split; try reflexivity.
  - destruct s as [d h irq dm sg]. destruct d, h. reflexivity.
  - left. reflexivity.
  - intros x [].
Qed.

Lemma error_phase_step (s : System) (it source : uart_it) (code : Z)
  (fs : Z * System) :
  In it [UART_IT_PE; UART_IT_FE; UART_IT_NE; UART_IT_ORE] ->
  In code error_codes ->
  error_phase s fs -> error_phase s (isr_error it source code fs).
Proof.
  intros Hit Hcode. destruct fs as [flags s1].
  intros (e & p & codes & Hs1 & Hflags & Hrx & Htx & Htc & Hincl & He).
  simpl in Hs1, Hflags. subst s1. unfold isr_error.
  destruct (_ && _).
  - exists (Z.lor e code), (override p it false), (codes ++ [code]).
    simpl. repeat split.
    + destruct Hflags as [->| ->]; right; reflexivity.
    + rewrite <- Hrx. simpl in Hit.
      destruct Hit as [<-|[<-|[<-|[<-|[]]]]]; reflexivity.
    + rewrite <- Htx. simpl in Hit.
      destruct Hit as [<-|[<-|[<-|[<-|[]]]]]; reflexivity.
    + rewrite <- Htc. simpl in Hit.
      destruct Hit as [<-|[<-|[<-|[<-|[]]]]]; reflexivity.
    + apply incl_app; [exact Hincl|]. intros x [<-|[]]. exact Hcode.
    + rewrite fold_left_app. simpl. rewrite He. reflexivity.
  - exists e, p, codes. repeat split; assumption.
Qed.

Lemma error_blocks (s : System) :
  error_phase s
    (isr_error UART_IT_ORE UART_IT_ERR HAL_UART_ERROR_ORE
       (isr_error UART_IT_NE UART_IT_ERR HAL_UART_ERROR_NE
          (isr_error UART_IT_FE UART_IT_ERR HAL_UART_ERROR_FE
             (isr_error UART_IT_PE UART_IT_PE HAL_UART_ERROR_PE (0, s))))).
Proof.
  repeat apply error_phase_step;
    try apply error_phase_start; simpl; tauto.
Qed.

(** The handler is its last three blocks run after the error blocks. *)
Lemma InterruptHandler_phases (s : System) :
  exists flags e p codes,
    InterruptHandler s
    = isr_finish (isr_transmit (isr_receive (flags, after_errors e p s))) /\
    (flags = 0 \/ flags = kErrorBit) /\
    p UART_IT_RXNE = it_pending (huart1 s) UART_IT_RXNE /\
    p UART_IT_TXE = it_pending (huart1 s) UART_IT_TXE /\
    p UART_IT_TC = it_pending (huart1 s) UART_IT_TC /\
    incl codes error_codes /\
    e = fold_left Z.lor codes (error_ (uart1 s)).
Proof.
  destruct (error_blocks s) as (e & p & codes & Hs & H).
  unfold InterruptHandler.
  destruct (isr_error UART_IT_ORE _ _ _) as [flags s1].
  simpl in Hs, H. subst s1.
  exists flags, e, p, codes. split; [reflexivity | exact H].
Qed.

Ltac handler_blocks :=
  unfold isr_receive, isr_transmit, isr_finish, osSignalSet, after_errors,
    on_driver, on_uart, with_pending, with_source, __HAL_UART_GET_IT,
    __HAL_UART_GET_IT_SOURCE, __HAL_UART_SEND_REQ, __HAL_UART_DISABLE_IT,
    __HAL_UART_ENABLE_IT, write_TDR, override; simpl.

(** C2.  When the handler runs with the transmit-data-empty condition
    pending and its source enabled (and does not die in the
    transmission-complete block): if the staging block has unsent bytes
    it writes the byte at the progress cursor to the transmit data
    register and advances the cursor by one, signalling no transmitted
    bit; otherwise it disables the transmit-empty interrupt source,
    lowers the pending flag and signals flags that contain the
    transmitted bit (bit 1). *)
Theorem InterruptHandler_transmit_block (s : System) :
  it_pending (huart1 s) UART_IT_TXE = true ->
  it_source (huart1 s) UART_IT_TXE = true ->
  it_pending (huart1 s) UART_IT_TC && it_source (huart1 s) UART_IT_TC = false ->
  exists s',
    InterruptHandler s = Ok s' /\
    (tx_progress_ (uart1 s) < tx_length_ (uart1 s) ->
     TDR (huart1 s')
     = nth (Z.to_nat (tx_progress_ (uart1 s))) (tx_data_ (uart1 s)) 0
       :: TDR (huart1 s) /\
     tx_progress_ (uart1 s') = tx_progress_ (uart1 s) + 1 /\
     tx_pending_ (uart1 s') = tx_pending_ (uart1 s) /\
     it_source (huart1 s') UART_IT_TXE = true /\
     (os_signals s' = os_signals s \/
      exists flags, os_signals s' = flags :: os_signals s /\
                    Z.testbit flags 1 = false)) /\
    (tx_length_ (uart1 s) <= tx_progress_ (uart1 s) ->
     TDR (huart1 s') = TDR (huart1 s) /\
     tx_progress_ (uart1 s') = tx_progress_ (uart1 s) /\
     it_source (huart1 s') UART_IT_TXE = false /\
     tx_pending_ (uart1 s') = false /\
     exists flags, os_signals s' = flags :: os_signals s /\
                   Z.testbit flags 1 = true).
Proof.
  intros Hpend Hsrc Htc.
  destruct (InterruptHandler_phases s)
    as (flags & e & p & codes & -> & Hflags & Hrx & Htx & Htcp & _).
  handler_blocks. rewrite Hrx.
  destruct (it_pending (huart1 s) UART_IT_RXNE
            && it_source (huart1 s) UART_IT_RXNE);
    [destruct (CircularBuffer.Write _ _ _) as [n rb]|];
    simpl; rewrite Htx, Hpend, Hsrc; simpl;
    destruct (Z.ltb_spec (tx_progress_ (uart1 s)) (tx_length_ (uart1 s)));
    simpl; rewrite Htcp, Htc;
    destruct Hflags as [->| ->]; simpl;
    (eexists; split; [reflexivity|]); simpl;
    (split; intros Hcmp; [try lia|try lia]);
    repeat split;
    try (rewrite Hsrc; reflexivity);
    try (left; reflexivity);
    try (right; eexists; split; reflexivity);
    try (eexists; split; reflexivity).
Qed.

(** C8.  When the handler runs with the receive-data-available
    condition pending and its source enabled, it issues the receive-flush
    request and signals flags that contain the received bit (bit 0), also
    when the receive ring is full and the byte is dropped, that is, the
    ring is left as it was. *)
Theorem InterruptHandler_receive_block (s : System) :
  it_pending (huart1 s) UART_IT_RXNE = true ->
  it_source (huart1 s) UART_IT_RXNE = true ->
  it_pending (huart1 s) UART_IT_TC && it_source (huart1 s) UART_IT_TC = false ->
  exists s' flags,
    InterruptHandler s = Ok s' /\
    RQR (huart1 s') = UART_RXDATA_FLUSH_REQUEST :: RQR (huart1 s) /\
    os_signals s' = flags :: os_signals s /\
    Z.testbit flags 0 = true /\
    read_buffer_ (uart1 s')
    = snd (CircularBuffer.Write (read_buffer_ (uart1 s))
                                [Z.land (RDR (huart1 s)) 255] 1) /\
    (CircularBuffer.wf (read_buffer_ (uart1 s)) ->
     CircularBuffer.IsFull (read_buffer_ (uart1 s)) = true ->
     read_buffer_ (uart1 s') = read_buffer_ (uart1 s)).
Proof.
  intros Hpend Hsrc Htc.
  destruct (InterruptHandler_phases s)
    as (flags & e & p & codes & -> & Hflags & Hrx & Htx & Htcp & _).
  handler_blocks. rewrite Hrx, Hpend, Hsrc. simpl.
  destruct (CircularBuffer.Write _ _ _) as [n rb] eqn:EW. simpl.
  assert (Hdrop : CircularBuffer.wf (read_buffer_ (uart1 s)) ->
                  CircularBuffer.IsFull (read_buffer_ (uart1 s)) = true ->
                  rb = read_buffer_ (uart1 s)).
  { intros Hwf Hfull. rewrite (cb_Write_full _ _ _ Hwf Hfull) in EW.
    inversion EW. reflexivity. }
  destruct (p UART_IT_TXE && it_source (huart1 s) UART_IT_TXE); simpl;
    [destruct (tx_progress_ (uart1 s) <? tx_length_ (uart1 s)); simpl|];
    rewrite Htcp, Htc;
    destruct Hflags as [->| ->]; simpl;
    do 2 eexists; (split; [reflexivity|]); simpl;
    repeat split; assumption.
Qed.

(** What the handler leaves alone when it returns. *)
Lemma InterruptHandler_frame (s s' : System) :
  InterruptHandler s = Ok s' ->
  (forall it, it <> UART_IT_TXE ->
              it_source (huart1 s') it = it_source (huart1 s) it) /\
  (exists codes, incl codes error_codes /\
                 error_ (uart1 s') = fold_left Z.lor codes (error_ (uart1 s))) /\
  write_buffer_ (uart1 s') = write_buffer_ (uart1 s) /\
  device_id_ (uart1 s') = device_id_ (uart1 s) /\
  tx_length_ (uart1 s') = tx_length_ (uart1 s) /\
  tx_data_ (uart1 s') = tx_data_ (uart1 s) /\
  devmgr s' = devmgr s /\
  (CircularBuffer.wf (read_buffer_ (uart1 s)) ->
   CircularBuffer.wf (read_buffer_ (uart1 s'))).
Proof.
  destruct (InterruptHandler_phases s)
    as (flags & e & p & codes & -> & _ & _ & _ & _ & Hincl & He).
  assert (Hsrc : forall (v : bool) (it : uart_it),
             it <> UART_IT_TXE ->
             (if uart_it_eqb it UART_IT_TXE then v
              else it_source (huart1 s) it) = it_source (huart1 s) it).
  { intros v it Hit. destruct (uart_it_eqb it UART_IT_TXE) eqn:E.
    - apply uart_it_eqb_eq in E. contradiction.
    - reflexivity. }
  handler_blocks.
  destruct (p UART_IT_RXNE && _);
    [pose proof (cb_wf_Write (read_buffer_ (uart1 s))
                   [Z.land (RDR (huart1 s)) 255] 1) as Hwf;
     destruct (CircularBuffer.Write _ _ _) as [n rb]|];
    simpl;
    (destruct (p UART_IT_TXE && _); simpl;
     [destruct (tx_progress_ (uart1 s) <? tx_length_ (uart1 s)); simpl|]);
    destruct (p UART_IT_TC && _); try discriminate;
    destruct (negb _); simpl; intros H; inversion H; subst; clear H; simpl;
    repeat match goal with |- _ /\ _ => split end;
    try reflexivity; try assumption;
    try (intros it Hit; first [apply Hsrc; exact Hit | reflexivity]);
    try (exists codes; split; [assumption|reflexivity]);
    try (intros Hb; exact Hb).
Qed.

Lemma EnsureTransmission_staging (s : System) :
  staging_invariant s -> staging_invariant (EnsureTransmission s).
Proof.
  intros [Hm Hb]. unfold EnsureTransmission.
  destruct (tx_pending_ (uart1 s)) eqn:Ep; simpl.
  - destruct (CircularBuffer.IsFull _); unfold staging_invariant; simpl;
      rewrite Ep; auto.
  - pose proof (cb_Read_length (write_buffer_ (uart1 s)) kTxBlockSize) as Hl.
    destruct (CircularBuffer.Read _ _) as [bytes wb]. simpl in *.
    destruct (Z.ltb_spec 0 (Z.of_nat (length bytes)));
      unfold staging_invariant; simpl.
    + split; [reflexivity|]. intros _. lia.
    + rewrite Ep. split; [exact Hm|]. discriminate.
Qed.

Lemma InterruptHandler_staging (s s' : System) :
  staging_invariant s -> InterruptHandler s = Ok s' -> staging_invariant s'.
Proof.
  intros [Hm Hb].
  destruct (InterruptHandler_phases s)
    as (flags & e & p & codes & -> & _).
  handler_blocks.
  destruct (p UART_IT_RXNE && _);
    [destruct (CircularBuffer.Write _ _ _) as [n rb]|];
    simpl;
    (destruct (p UART_IT_TXE && _); simpl;
     [destruct (Z.ltb_spec (tx_progress_ (uart1 s)) (tx_length_ (uart1 s)));
      simpl|]);
    destruct (p UART_IT_TC && _); try discriminate;
    destruct (negb _); simpl; intros H'; inversion H'; subst; clear H';
    unfold staging_invariant; simpl;
    (split; [first [exact Hm | reflexivity]|]);
    intros Hp; try discriminate; specialize (Hb Hp); lia.
Qed.

(** The other member functions and the peripheral keep the invariant. *)
Lemma run_op_staging (o : operation) (s s' : System) :
  staging_invariant s -> run_op o s = Ok s' -> staging_invariant s'.
Proof.
  intros Hinv. destruct o; simpl; intros H; try (injection H as <-).
  - unfold Read. destruct (CircularBuffer.Read _ _) as [bytes rb]. simpl.
    destruct (CircularBuffer.IsEmpty rb); exact Hinv.
  - unfold Write. destruct (CircularBuffer.Write _ _ _) as [n wb]. simpl.
    destruct (0 <? n); [apply EnsureTransmission_staging|]; exact Hinv.
  - exact Hinv.
  - unfold Task_turn. destruct (status event); try exact Hinv.
    destruct (negb _).
    + pose proof (EnsureTransmission_staging s Hinv) as H. exact H.
    + exact Hinv.
  - apply EnsureTransmission_staging. exact Hinv.
  - apply (InterruptHandler_staging s); assumption.
  - exact Hinv.
Qed.

Lemma run_invariant (I : System -> Prop) :
  (forall o s s', I s -> run_op o s = Ok s' -> I s') ->
  forall ops s s', I s -> run ops s = Ok s' -> I s'.
Proof.
  intros Hstep. induction ops as [|o ops IH]; simpl; intros s s' Hs H.
  - inversion H. subst. exact Hs.
  - destruct (run_op o s) as [s1|] eqn:E; [|discriminate].
    apply (IH s1); [apply (Hstep o s)|]; assumption.
Qed.

Lemma InterruptHandler_returns (s : System) :
  it_pending (huart1 s) UART_IT_TC && it_source (huart1 s) UART_IT_TC = false ->
  exists s', InterruptHandler s = Ok s'.
Proof.
  intros Htc.
  destruct (InterruptHandler_phases s)
    as (flags & e & p & codes & -> & _ & _ & _ & Htcp & _).
  handler_blocks.
  destruct (p UART_IT_RXNE && _);
    [destruct (CircularBuffer.Write _ _ _) as [n rb]|];
    simpl;
    (destruct (p UART_IT_TXE && _); simpl;
     [destruct (tx_progress_ (uart1 s) <? tx_length_ (uart1 s)); simpl|]);
    rewrite Htcp, Htc; destruct (negb _); eexists; reflexivity.
Qed.

Lemma InterruptHandler_fatal (s : System) :
  it_pending (huart1 s) UART_IT_TC = true ->
  it_source (huart1 s) UART_IT_TC = true ->
  InterruptHandler s = Fatal.
Proof.
  intros Hpend Hsrc.
  destruct (InterruptHandler_phases s)
    as (flags & e & p & codes & -> & _ & _ & _ & Htcp & _).
  handler_blocks.
  destruct (p UART_IT_RXNE && _);
    [destruct (CircularBuffer.Write _ _ _) as [n rb]|];
    simpl;
    (destruct (p UART_IT_TXE && _); simpl;
     [destruct (tx_progress_ (uart1 s) <? tx_length_ (uart1 s)); simpl|]);
    rewrite Htcp, Hpend, Hsrc; reflexivity.
Qed.

(** No operation enables the transmission-complete interrupt source. *)
Lemma run_op_keeps_TC_disabled (o : operation) (s s' : System) :
  it_source (huart1 s) UART_IT_TC = false ->
  run_op o s = Ok s' ->
  it_source (huart1 s') UART_IT_TC = false.
Proof.
  intros Hoff.
  assert (Het : forall s1, it_source (huart1 s1) UART_IT_TC = false ->
                           it_source (huart1 (EnsureTransmission s1)) UART_IT_TC
                           = false).
  { intros s1 H1.
    destruct (EnsureTransmission_frame s1) as (_ & _ & _ & _ & H & _).
    rewrite H; [exact H1 | discriminate]. }
  destruct o; simpl; intros H; try (injection H as <-).
  - unfold Read. destruct (CircularBuffer.Read _ _) as [bytes rb]. simpl.
    destruct (CircularBuffer.IsEmpty rb); exact Hoff.
  - unfold Write. destruct (CircularBuffer.Write _ _ _) as [n wb]. simpl.
    destruct (0 <? n); [apply Het|]; exact Hoff.
  - exact Hoff.
  - unfold Task_turn. destruct (status event); try exact Hoff.
    destruct (negb _); simpl; [apply Het|]; exact Hoff.
  - apply Het. exact Hoff.
  - destruct (InterruptHandler_frame s s' H) as (Hsrc & _).
    rewrite Hsrc; [exact Hoff | discriminate].
  - exact Hoff.
Qed.

Lemma Initialize_effect (device_id : Z) (s s0 : System) :
  Initialize device_id s = Ok s0 ->
  it_source (huart1 s0) UART_IT_TC = false /\
  it_source (huart1 s0) UART_IT_TXE = it_source (huart1 s) UART_IT_TXE /\
  tx_pending_ (uart1 s0) = tx_pending_ (uart1 s) /\
  device_id_ (uart1 s0) = device_id /\
  device_id <> kIllegalDeviceId /\
  USART1_IRQn s0 = true.
Proof.
  unfold Initialize.
  destruct (negb _); [discriminate|].
  destruct (Z.eqb_spec device_id kIllegalDeviceId); [discriminate|].
  intros H. inversion H. subst. clear H. simpl. repeat split. assumption.
Qed.

(** The ring buffers stay well formed. *)
Lemma EnsureTransmission_wf (s : System) :
  buffers_wf s -> buffers_wf (EnsureTransmission s).
Proof.
  intros [Hr Hw]. unfold EnsureTransmission.
  destruct (tx_pending_ (uart1 s)); simpl.
  - destruct (CircularBuffer.IsFull _); split; assumption.
  - pose proof (cb_wf_Read (write_buffer_ (uart1 s)) kTxBlockSize Hw) as Hw'.
    destruct (CircularBuffer.Read _ _) as [bytes wb]. simpl in *.
    destruct (0 <? _); split; assumption.
Qed.

Lemma run_op_wf (o : operation) (s s' : System) :
  buffers_wf s -> run_op o s = Ok s' -> buffers_wf s'.
Proof.
  intros Hwf. pose proof Hwf as [Hr Hw].
  destruct o; simpl; intros H; try (injection H as <-).
  - unfold Read.
    pose proof (cb_wf_Read (read_buffer_ (uart1 s)) count Hr) as Hr'.
    destruct (CircularBuffer.Read _ _) as [bytes rb]. simpl in *.
    destruct (CircularBuffer.IsEmpty rb); split; assumption.
  - unfold Write.
    pose proof (cb_wf_Write (write_buffer_ (uart1 s))
                  (skipn (Z.to_nat offset) buffer) count Hw) as Hw'.
    destruct (CircularBuffer.Write _ _ _) as [n wb]. simpl in *.
    destruct (0 <? n); [apply EnsureTransmission_wf|]; split; assumption.
  - exact Hwf.
  - unfold Task_turn. destruct (status event); try exact Hwf.
    destruct (negb _).
    + pose proof (EnsureTransmission_wf s Hwf) as H. exact H.
    + exact Hwf.
  - apply EnsureTransmission_wf. exact Hwf.
  - destruct (InterruptHandler_frame s s' H)
      as (_ & _ & Hwb & _ & _ & _ & _ & Hrb).
    split; [apply Hrb; exact Hr | rewrite Hwb; exact Hw].
  - exact Hwf.
Qed.

Lemma buffers_wf_reachable
  (h : UART_HandleTypeDef) (tx_data0 : list Z)
  (tx_length0 tx_progress0 device_id : Z) (s0 s : System) :
  Initialize device_id (boot h tx_data0 tx_length0 tx_progress0) = Ok s0 ->
  reachable s0 s ->
  buffers_wf s.
Proof.
  intros Hinit [ops Hrun].
  apply (run_invariant buffers_wf run_op_wf ops s0 s); [|exact Hrun].
  revert Hinit. unfold Initialize.
  destruct (negb _); [discriminate|].
  destruct (device_id =? kIllegalDeviceId); [discriminate|].
  intros H. injection H as <-.
  split; apply cb_wf_create; discriminate.
Qed.

(** A [Read] leaves the receive ring empty exactly when it was asked for
    at least as many bytes as the ring held. *)
Lemma Read_leaves_empty_iff (count : Z) (s : System) :
  CircularBuffer.wf (read_buffer_ (uart1 s)) ->
  CircularBuffer.IsEmpty (read_buffer_ (uart1 (snd (Read count s)))) = true <->
  CircularBuffer.available (read_buffer_ (uart1 s)) <= Z.max 0 count.
Proof.
  intros Hwf. rewrite <- (cb_Read_drains _ count Hwf). unfold Read.
  destruct (CircularBuffer.Read _ _) as [bytes rb]. simpl.
  destruct (CircularBuffer.IsEmpty rb) eqn:E; simpl; rewrite E; reflexivity.
Qed.

Lemma device_flags_cleared (id flags : Z) (calls : list dm_call) (n : Z) :
  Z.testbit flags n = true ->
  Z.testbit (device_flags id (ClearFlags id flags :: calls)) n = false.
Proof.
  intros H. simpl. rewrite Z.eqb_refl, Z.ldiff_spec, H. apply andb_false_r.
Qed.

(** ** Main theorems *)

(** C1. [EnsureTransmission]: with no transmission pending it takes up
    to [kTxBlockSize] bytes from the transmit ring into the staging block
    and, exactly when it got at least one, sets the progress cursor to 0,
    raises the pending flag and enables the transmit-empty interrupt
    source; with a transmission pending and the transmit ring full it
    clears the transmitted bit (bit 1) at the device manager. *)
Theorem EnsureTransmission_loads_or_holds_back
  (s : System) (bytes : list Z) (wb : CircularBuffer.t) :
  CircularBuffer.Read (write_buffer_ (uart1 s)) kTxBlockSize = (bytes, wb) ->
  (tx_pending_ (uart1 s) = false ->
   (length bytes <= Z.to_nat kTxBlockSize)%nat /\
   write_buffer_ (uart1 (EnsureTransmission s)) = wb /\
   tx_length_ (uart1 (EnsureTransmission s)) = Z.of_nat (length bytes) /\
   firstn (length bytes) (tx_data_ (uart1 (EnsureTransmission s))) = bytes /\
   devmgr (EnsureTransmission s) = devmgr s /\
   (bytes <> [] ->
    tx_progress_ (uart1 (EnsureTransmission s)) = 0 /\
    tx_pending_ (uart1 (EnsureTransmission s)) = true /\
    it_source (huart1 (EnsureTransmission s)) UART_IT_TXE = true) /\
   (bytes = [] ->
    tx_progress_ (uart1 (EnsureTransmission s)) = tx_progress_ (uart1 s) /\
    tx_pending_ (uart1 (EnsureTransmission s)) = false /\
    huart1 (EnsureTransmission s) = huart1 s)) /\
  (tx_pending_ (uart1 s) = true ->
   CircularBuffer.IsFull (write_buffer_ (uart1 s)) = true ->
   EnsureTransmission s
   = DeviceManagerClearFlags (device_id_ (uart1 s)) kTransmittedBit s /\
   Z.testbit
     (device_flags (device_id_ (uart1 s)) (devmgr (EnsureTransmission s))) 1
   = false).
Proof.
  intros HR. pose proof (cb_Read_length (write_buffer_ (uart1 s)) kTxBlockSize) as Hl.
  unfold EnsureTransmission. rewrite HR in *. simpl in Hl. split.
  - intros Hp. rewrite Hp. simpl. split; [lia|]. split; [|split; [|split]].
    + destruct (0 <? _); reflexivity.
    + destruct (0 <? _); reflexivity.
    + assert (Hf : firstn (length bytes)
                     (bytes ++ skipn (length bytes) (tx_data_ (uart1 s)))
                   = bytes).
      { rewrite firstn_app, firstn_all, Nat.sub_diag. simpl.
        apply app_nil_r. }
      destruct (0 <? _); exact Hf.
    + destruct bytes as [|b bytes]; simpl.
      * split; [reflexivity|]. split.
        -- intros H. contradiction H. reflexivity.
        -- intros _. repeat split. exact Hp.
      * split; [reflexivity|]. split.
        -- intros _. repeat split.
        -- discriminate.
  - intros -> ->. split; [reflexivity|].
    cbn -[device_flags Z.testbit]. apply device_flags_cleared. reflexivity.
Qed.

(** C3, as amended.  [Read] returns the number of bytes it took from the
    receive ring, 0 if that was empty; it issues one clear of the
    received bit (bit 0) at the device manager exactly when the receive
    ring is empty after the read, whether or not it was empty before, and
    makes no call otherwise. *)
Theorem Read_clears_when_left_empty
  (count : Z) (s : System) (c : Z) (bytes : list Z) (s' : System) :
  Read count s = (c, bytes, s') ->
  c = Z.of_nat (length bytes) /\
  c <= Z.max 0 count /\
  (bytes, read_buffer_ (uart1 s'))
  = CircularBuffer.Read (read_buffer_ (uart1 s)) count /\
  (CircularBuffer.IsEmpty (read_buffer_ (uart1 s)) = true -> c = 0) /\
  (CircularBuffer.IsEmpty (read_buffer_ (uart1 s')) = true ->
   clear_issued kReceivedBit s s' /\
   Z.testbit (device_flags (device_id_ (uart1 s)) (devmgr s')) 0 = false) /\
  (CircularBuffer.IsEmpty (read_buffer_ (uart1 s')) = false ->
   devmgr s' = devmgr s).
Proof.
  unfold Read.
  pose proof (cb_Read_length (read_buffer_ (uart1 s)) count) as Hl.
  pose proof (cb_Read_empty (read_buffer_ (uart1 s)) count) as He.
  pose proof (device_flags_cleared (device_id_ (uart1 s)) kReceivedBit
                (devmgr s) 0 eq_refl) as Hbit.
  destruct (CircularBuffer.Read _ _) as [bs rb]. simpl in He, Hl.
  destruct (CircularBuffer.IsEmpty rb) eqn:E; intros H; inversion H; subst;
    clear H; unfold clear_issued; simpl; rewrite E; simpl; rewrite ?E.
  - repeat split; try lia; try discriminate.
    + intros Hempty. rewrite (He Hempty). reflexivity.
    + exact Hbit.
  - repeat split; try lia; try discriminate.
    intros Hempty. rewrite (He Hempty). reflexivity.
Qed.

(** C4.  [GetError] clears the error bit (bit 3) at the device manager
    and returns the accumulated mask, which it leaves as it was, as it
    does the rest of the driver, the peripheral and the signals; so a
    second call returns the same value. *)
Theorem GetError_keeps_the_mask (s : System) :
  fst (GetError s) = error_ (uart1 s) /\
  uart1 (snd (GetError s)) = uart1 s /\
  huart1 (snd (GetError s)) = huart1 s /\
  USART1_IRQn (snd (GetError s)) = USART1_IRQn s /\
  os_signals (snd (GetError s)) = os_signals s /\
  devmgr (snd (GetError s))
  = ClearFlags (device_id_ (uart1 s)) kErrorBit :: devmgr s /\
  Z.testbit
    (device_flags (device_id_ (uart1 s)) (devmgr (snd (GetError s)))) 3
  = false /\
  fst (GetError (snd (GetError s))) = fst (GetError s).
Proof.
  cbn -[device_flags Z.testbit]. repeat split.
  apply device_flags_cleared. reflexivity.
Qed.

(** C5, as amended.  In every state reached from an initialised driver
    whose transmit-empty interrupt source was disabled at start, by any
    run of client calls, task wakes, calls of [EnsureTransmission],
    interrupts and status changes of the peripheral: the pending flag is
    true iff the transmit-empty interrupt source is enabled, and while it
    is true the progress cursor is between 0 and the length, which is
    positive and at most [kTxBlockSize]. *)
Theorem staging_invariant_reachable
  (h : UART_HandleTypeDef) (tx_data0 : list Z)
  (tx_length0 tx_progress0 device_id : Z) (s0 s : System) :
  it_source h UART_IT_TXE = false ->
  Initialize device_id (boot h tx_data0 tx_length0 tx_progress0) = Ok s0 ->
  reachable s0 s ->
  staging_invariant s.
Proof.
  intros Hoff Hinit [ops Hrun].
  apply (run_invariant staging_invariant run_op_staging ops s0 s); [|exact Hrun].
  destruct (Initialize_effect _ _ _ Hinit) as (_ & Htxe & Hpend & _).
  unfold staging_invariant. rewrite Htxe, Hpend. simpl.
  split; [symmetry; exact Hoff | discriminate].
Qed.

(** C6.  A wake of the task with the signal bits S calls
    [EnsureTransmission] exactly when bit 1 is in S, and then forwards
    all of S to the device manager with [SetFlags], addressed by the
    device id of the driver.  At the device manager the turn shows as
    one [SetFlags] call with the device id and S, the most recent entry
    of its log and the only [SetFlags] of the turn.  Without bit 1 the
    driver object and the peripheral are as before and that call is the
    only one.  With bit 1 the effects of [EnsureTransmission] are there:
    with no transmission pending the transmit ring has been read into the
    staging block and, if that gave a byte, the transmission is pending
    with the transmit-empty source enabled; with a transmission pending
    and the ring full the clear of the transmitted bit comes just before
    the [SetFlags] call. *)
Theorem Task_turn_forwards_signals (event : osEvent) (s : System) :
  status event = osEventSignal ->
  0 <= signals event < 2 ^ 32 ->
  Task_turn event s
  = DeviceManagerSetFlags
      (device_id_ (uart1 s)) (signals event)
      (if Z.testbit (signals event) 1 then EnsureTransmission s else s) /\
  devmgr (Task_turn event s)
  = SetFlags (device_id_ (uart1 s)) (signals event)
    :: devmgr (if Z.testbit (signals event) 1
               then EnsureTransmission s else s) /\
  set_calls (devmgr (Task_turn event s))
  = signals event :: set_calls (devmgr s) /\
  (Z.testbit (signals event) 1 = false ->
   uart1 (Task_turn event s) = uart1 s /\
   huart1 (Task_turn event s) = huart1 s /\
   devmgr (Task_turn event s)
   = SetFlags (device_id_ (uart1 s)) (signals event) :: devmgr s) /\
  (Z.testbit (signals event) 1 = true ->
   (tx_pending_ (uart1 s) = false ->
    write_buffer_ (uart1 (Task_turn event s))
    = snd (CircularBuffer.Read (write_buffer_ (uart1 s)) kTxBlockSize) /\
    tx_length_ (uart1 (Task_turn event s))
    = Z.of_nat
        (length
           (fst (CircularBuffer.Read (write_buffer_ (uart1 s)) kTxBlockSize))) /\
    firstn
      (length
         (fst (CircularBuffer.Read (write_buffer_ (uart1 s)) kTxBlockSize)))
      (tx_data_ (uart1 (Task_turn event s)))
    = fst (CircularBuffer.Read (write_buffer_ (uart1 s)) kTxBlockSize) /\
    (fst (CircularBuffer.Read (write_buffer_ (uart1 s)) kTxBlockSize) <> [] ->
     tx_progress_ (uart1 (Task_turn event s)) = 0 /\
     tx_pending_ (uart1 (Task_turn event s)) = true /\
     it_source (huart1 (Task_turn event s)) UART_IT_TXE = true) /\
    devmgr (Task_turn event s)
    = SetFlags (device_id_ (uart1 s)) (signals event) :: devmgr s) /\
   (tx_pending_ (uart1 s) = true ->
    CircularBuffer.IsFull (write_buffer_ (uart1 s)) = true ->
    uart1 (Task_turn event s) = uart1 s /\
    huart1 (Task_turn event s) = huart1 s /\
    devmgr (Task_turn event s)
    = SetFlags (device_id_ (uart1 s)) (signals event)
      :: ClearFlags (device_id_ (uart1 s)) kTransmittedBit :: devmgr s) /\
   (tx_pending_ (uart1 s) = true ->
    CircularBuffer.IsFull (write_buffer_ (uart1 s)) = false ->
    uart1 (Task_turn event s) = uart1 s /\
    huart1 (Task_turn event s) = huart1 s /\
    devmgr (Task_turn event s)
    = SetFlags (device_id_ (uart1 s)) (signals event) :: devmgr s)).
Proof.
  intros Hst Hrange. unfold Task_turn. rewrite Hst.
  unfold to_uint32. rewrite Z.mod_small by exact Hrange.
  assert (Hcond : negb (Z.land (signals event) kTransmittedBit =? 0)
                  = Z.testbit (signals event) 1).
  { unfold kTransmittedBit. rewrite land_bit_is_zero by lia.
    apply negb_involutive. }
  rewrite Hcond.
  assert (Hid : device_id_ (uart1 (EnsureTransmission s))
                = device_id_ (uart1 s))
    by apply (EnsureTransmission_frame s).
  pose proof (set_calls_EnsureTransmission s) as Hset.
  destruct (Z.testbit (signals event) 1); simpl; rewrite ?Hid.
  - split; [reflexivity|]. split; [reflexivity|].
    split; [rewrite Hset; reflexivity|].
    split; [discriminate|]. intros _. clear Hset Hid.
    unfold EnsureTransmission. split; [|split].
    + intros Hp. rewrite Hp. simpl.
      destruct (CircularBuffer.Read _ _) as [bytes wb]. simpl.
      assert (Hf : firstn (length bytes)
                     (bytes ++ skipn (length bytes) (tx_data_ (uart1 s)))
                   = bytes).
      { rewrite firstn_app, firstn_all, Nat.sub_diag. simpl.
        apply app_nil_r. }
      destruct bytes as [|b bytes].
      * simpl. split; [reflexivity|]. split; [reflexivity|].
        split; [reflexivity|]. split; [|reflexivity].
        intros Hne. exfalso. apply Hne. reflexivity.
      * cbn -[firstn skipn length app].
        split; [reflexivity|]. split; [reflexivity|].
        split; [exact Hf|]. split; [|reflexivity].
        intros _. repeat split.
    + intros Hp Hf. rewrite Hp, Hf. simpl. repeat split.
    + intros Hp Hf. rewrite Hp, Hf. simpl. repeat split.
  - split; [reflexivity|]. split; [reflexivity|].
    split; [reflexivity|]. split; [|discriminate].
    intros _. repeat split.
Qed.

(** C7.  Entering the transmission-complete block is fatal; after
    [Initialize] no run of the driver enables the transmission-complete
    interrupt source, so the handler never enters that block and always
    returns. *)
Theorem transmission_complete_unreachable
  (device_id : Z) (s_boot s0 s : System) :
  Initialize device_id s_boot = Ok s0 ->
  reachable s0 s ->
  it_source (huart1 s) UART_IT_TC = false /\
  (exists s', InterruptHandler s = Ok s') /\
  (forall s1,
      it_pending (huart1 s1) UART_IT_TC = true ->
      it_source (huart1 s1) UART_IT_TC = true ->
      InterruptHandler s1 = Fatal).
Proof.
  intros Hinit [ops Hrun].
  destruct (Initialize_effect _ _ _ Hinit) as (Htc & _).
  assert (Hoff : it_source (huart1 s) UART_IT_TC = false).
  { apply (run_invariant
             (fun s => it_source (huart1 s) UART_IT_TC = false)
             run_op_keeps_TC_disabled ops s0 s); assumption. }
  split; [exact Hoff|]. split.
  - apply InterruptHandler_returns. rewrite Hoff. apply andb_false_r.
  - exact InterruptHandler_fatal.
Qed.

(** C9.  With a transmission pending and the transmit ring not full,
    [EnsureTransmission] changes nothing at all. *)
Theorem EnsureTransmission_pending_is_noop (s : System) :
  tx_pending_ (uart1 s) = true ->
  CircularBuffer.IsFull (write_buffer_ (uart1 s)) = false ->
  EnsureTransmission s = s.
Proof.
  intros Hp Hf. unfold EnsureTransmission. rewrite Hp, Hf. reflexivity.
Qed.

(** C10.  Every operation leaves [error_] as it was or ors error codes
    of the HAL into it; no bit of it is ever cleared. *)
Theorem error_mask_only_grows (o : operation) (s s' : System) :
  run_op o s = Ok s' ->
  (exists codes,
      incl codes error_codes /\
      error_ (uart1 s') = fold_left Z.lor codes (error_ (uart1 s))) /\
  (forall n, Z.testbit (error_ (uart1 s)) n = true ->
             Z.testbit (error_ (uart1 s')) n = true).
Proof.
  intros H.
  assert (Hcodes : exists codes,
             incl codes error_codes /\
             error_ (uart1 s') = fold_left Z.lor codes (error_ (uart1 s))).
  { assert (Hsame : error_ (uart1 s') = error_ (uart1 s) ->
                    exists codes,
                      incl codes error_codes /\
                      error_ (uart1 s')
                      = fold_left Z.lor codes (error_ (uart1 s))).
    { intros E. exists []. split; [intros x []|exact E]. }
    assert (Het : forall s1, error_ (uart1 (EnsureTransmission s1))
                             = error_ (uart1 s1)).
    { intros s1. apply (EnsureTransmission_frame s1). }
    destruct o; simpl in H; try (injection H as <-).
    - apply Hsame. unfold Read.
      destruct (CircularBuffer.Read _ _) as [bytes rb]. simpl.
      destruct (CircularBuffer.IsEmpty rb); reflexivity.
    - apply Hsame. unfold Write.
      destruct (CircularBuffer.Write _ _ _) as [n wb]. simpl.
      destruct (0 <? n); [rewrite Het|]; reflexivity.
    - apply Hsame. reflexivity.
    - apply Hsame. unfold Task_turn. destruct (status event); try reflexivity.
      destruct (negb _); simpl; [apply Het|reflexivity].
    - apply Hsame. apply Het.
    - apply (InterruptHandler_frame s s' H).
    - apply Hsame. reflexivity. }
  split; [exact Hcodes|].
  destruct Hcodes as (codes & _ & ->). intros n.
  apply fold_lor_keeps_bits.
Qed.

End DriverFacts.

Transparent CircularBuffer.Read CircularBuffer.Write.

(** ** The theorems on the example board *)

Lemma board_ready_initialized :
  @Initialize board 42 board_boot = Ok board_ready.
Proof. reflexivity. Qed.

Lemma EnsureTransmission_loads_on_board :
  (tx_progress_ (uart1 (@EnsureTransmission board board_queued)) = 0 /\
   tx_pending_ (uart1 (@EnsureTransmission board board_queued)) = true /\
   it_source (huart1 (@EnsureTransmission board board_queued)) UART_IT_TXE
   = true) /\
  (@EnsureTransmission board board_tx_full
   = DeviceManagerClearFlags
       (device_id_ (uart1 board_tx_full)) kTransmittedBit board_tx_full /\
   Z.testbit
     (device_flags (device_id_ (uart1 board_tx_full))
        (devmgr (@EnsureTransmission board board_tx_full))) 1
   = false).
Proof.
  split.
  - assert (HR : CircularBuffer.Read (write_buffer_ (uart1 board_queued))
                   (@kTxBlockSize board)
                 = ([170],
                    snd (CircularBuffer.Read
                           (write_buffer_ (uart1 board_queued)) 10)))
      by (vm_compute; reflexivity).
    destruct (@EnsureTransmission_loads_or_holds_back board board_queued _ _ HR)
      as [H _].
    destruct (H eq_refl) as (_ & _ & _ & _ & _ & Hload & _).
    apply Hload. discriminate.
  - apply (@EnsureTransmission_loads_or_holds_back board board_tx_full
             (fst (CircularBuffer.Read (write_buffer_ (uart1 board_tx_full))
                     (@kTxBlockSize board)))
             (snd (CircularBuffer.Read (write_buffer_ (uart1 board_tx_full))
                     (@kTxBlockSize board)))).
    + reflexivity.
    + vm_compute. reflexivity.
    + vm_compute. reflexivity.
Defined.

Lemma InterruptHandler_transmit_on_board :
  (exists s',
      @InterruptHandler board board_txe = Ok s' /\
      TDR (huart1 s') = [170] /\
      tx_progress_ (uart1 s') = 1) /\
  (exists s',
      @InterruptHandler board board_txe_again = Ok s' /\
      it_source (huart1 s') UART_IT_TXE = false /\
      tx_pending_ (uart1 s') = false /\
      exists flags, os_signals s' = [flags] /\ Z.testbit flags 1 = true).
Proof.
  split.
  - destruct (@InterruptHandler_transmit_block board board_txe
                eq_refl eq_refl eq_refl) as (s' & Hs' & Hlt & _).
    exists s'. split; [exact Hs'|].
    assert (Hcmp : tx_progress_ (uart1 board_txe)
                   < tx_length_ (uart1 board_txe))
      by (vm_compute; reflexivity).
    destruct (Hlt Hcmp) as (HT & Hp & _).
    split; [exact HT | exact Hp].
  - destruct (@InterruptHandler_transmit_block board board_txe_again
                eq_refl eq_refl eq_refl) as (s' & Hs' & _ & Hge).
    exists s'. split; [exact Hs'|].
    assert (Hcmp : tx_length_ (uart1 board_txe_again)
                   <= tx_progress_ (uart1 board_txe_again))
      by (vm_compute; congruence).
    destruct (Hge Hcmp) as (_ & _ & Hsrc & Hp & Hsig).
    split; [exact Hsrc|]. split; [exact Hp | exact Hsig].
Defined.

Lemma Read_clears_on_board :
  clear_issued kReceivedBit board_received (snd (Read 1 board_received)).
Proof.
  assert (HR : Read 1 board_received
               = (1, [65], snd (Read 1 board_received)))
    by (vm_compute; reflexivity).
  destruct (Read_clears_when_left_empty 1 board_received _ _ _ HR)
    as (_ & _ & _ & _ & Hclear & _).
  apply Hclear. vm_compute. reflexivity.
Defined.

Lemma staging_invariant_on_board :
  @staging_invariant board board_last_byte_out.
Proof.
  apply (@staging_invariant_reachable board huart_reset (repeat 0 10%nat)
           0 0 42 board_ready board_last_byte_out).
  - reflexivity.
  - reflexivity.
  - exists last_byte_out. vm_compute. reflexivity.
Defined.

Lemma Task_turn_on_board :
  tx_pending_ (uart1 board_reload) = false /\
  devmgr (@Task_turn board transmitted_event board_reload)
  = [SetFlags 42 2] /\
  tx_length_ (uart1 (@Task_turn board transmitted_event board_reload)) = 2 /\
  firstn 2 (tx_data_ (uart1 (@Task_turn board transmitted_event board_reload)))
  = [11; 12] /\
  tx_pending_ (uart1 (@Task_turn board transmitted_event board_reload))
  = true /\
  it_source (huart1 (@Task_turn board transmitted_event board_reload))
    UART_IT_TXE = true.
Proof.
  assert (Hrange : 0 <= signals transmitted_event < 2 ^ 32)
    by (vm_compute; split; congruence).
  assert (Hidle : tx_pending_ (uart1 board_reload) = false)
    by (vm_compute; reflexivity).
  assert (Hread : fst (CircularBuffer.Read (write_buffer_ (uart1 board_reload))
                         (@kTxBlockSize board)) = [11; 12])
    by (vm_compute; reflexivity).
  destruct (@Task_turn_forwards_signals board transmitted_event board_reload
              eq_refl Hrange) as (_ & _ & _ & _ & Hcall).
  destruct (Hcall eq_refl) as (Hload & _).
  destruct (Hload Hidle) as (_ & Hlen & Hdata & Harm & Hlog).
  rewrite Hread in Hlen, Hdata, Harm.
  destruct Harm as (_ & Hpend & Hsrc); [discriminate|].
  split; [exact Hidle|]. split; [rewrite Hlog; vm_compute; reflexivity|].
  split; [exact Hlen|]. split; [exact Hdata|]. split; assumption.
Defined.

Lemma transmission_complete_off_on_board :
  it_source (huart1 board_last_byte_out) UART_IT_TC = false /\
  exists s', @InterruptHandler board board_last_byte_out = Ok s'.
Proof.
  assert (Hreach : @reachable board board_ready board_last_byte_out)
    by (exists last_byte_out; vm_compute; reflexivity).
  destruct (@transmission_complete_unreachable board 42 board_boot
              board_ready board_last_byte_out eq_refl Hreach)
    as (Hoff & Hret & _).
  split; assumption.
Defined.

Lemma InterruptHandler_overrun_on_board :
  exists s' flags,
    @InterruptHandler board board_rx_overrun = Ok s' /\
    RQR (huart1 s') = [UART_RXDATA_FLUSH_REQUEST] /\
    os_signals s' = [flags] /\
    Z.testbit flags 0 = true /\
    read_buffer_ (uart1 s') = read_buffer_ (uart1 board_rx_overrun).
Proof.
  destruct (@InterruptHandler_receive_block board board_rx_overrun
              eq_refl eq_refl eq_refl)
    as (s' & flags & Hs' & Hreq & Hsig & Hbit & _ & Hdrop).
  exists s', flags. repeat split; try assumption.
  apply Hdrop.
  - exact (cb_wf_Write (CircularBuffer.create kRxBufferSize)
             (repeat 7 511%nat) 511
             (cb_wf_create kRxBufferSize ltac:(vm_compute; congruence))).
  - vm_compute. reflexivity.
Defined.

Lemma EnsureTransmission_noop_on_board :
  @EnsureTransmission board board_sending = board_sending.
Proof.
  apply (@EnsureTransmission_pending_is_noop board board_sending).
  - vm_compute. reflexivity.
  - vm_compute. reflexivity.
Defined.

Lemma error_mask_grows_on_board :
  exists codes,
    incl codes (@error_codes board) /\
    error_ (uart1 board_parity_seen)
    = fold_left Z.lor codes (error_ (uart1 board_parity)).
Proof.
  assert (Hrun : @run_op board Interrupt board_parity = Ok board_parity_seen)
    by (vm_compute; reflexivity).
  destruct (@error_mask_only_grows board Interrupt board_parity
              board_parity_seen Hrun) as [H _].
  exact H.
Defined.

(** ** Where the specification says more than the code does *)

(** C3 as stated fails: a [Read] of a receive ring that is already empty
    issues a clear of the received bit, although the ring did not go from
    non-empty to empty. *)
Lemma Read_of_empty_ring_clears :
  CircularBuffer.IsEmpty (read_buffer_ (uart1 board_ready)) = true /\
  fst (fst (Read 1 board_ready)) = 0 /\
  clear_issued kReceivedBit board_ready (snd (Read 1 board_ready)) /\
  ~ (clear_issued kReceivedBit board_ready (snd (Read 1 board_ready)) <->
     rx_drained board_ready (snd (Read 1 board_ready))).
Proof.
  assert (Hclear : clear_issued kReceivedBit board_ready
                     (snd (Read 1 board_ready)))
    by (vm_compute; reflexivity).
  repeat split; try exact Hclear.
  intros [H _]. destruct (H Hclear) as [Hne _].
  vm_compute in Hne. discriminate.
Qed.

(** C5 as stated fails: once the handler has written the last byte of
    the block, the pending flag is still true although no unsent byte is
    left; and after the next block turned out empty the progress cursor
    exceeds the length. *)
Lemma spec_staging_invariant_fails :
  @Initialize board 42 board_boot = Ok board_ready /\
  @run board last_byte_out board_ready = Ok board_last_byte_out /\
  ~ spec_staging_invariant board_last_byte_out /\
  @run board block_done board_ready = Ok board_block_done /\
  ~ spec_staging_invariant board_block_done.
Proof.
  split; [reflexivity|].
  split; [vm_compute; reflexivity|].
  split; [|split; [vm_compute; reflexivity|]].
  - intros [_ [H _]].
    assert (Hp : tx_pending_ (uart1 board_last_byte_out) = true)
      by (vm_compute; reflexivity).
    destruct (H Hp) as [Hlt _]. vm_compute in Hlt. discriminate.
  - intros [H _]. vm_compute in H. apply H. reflexivity.
Qed.

(** * More of the driver *)

(** ** The ring as a queue *)

Lemma firstn_seq_min (n start len : nat) :
  firstn n (seq start len) = seq start (Nat.min n len).
Proof.
  revert start len. induction n as [|n IH]; intros start [|len]; simpl;
    try reflexivity.
  rewrite IH. reflexivity.
Qed.

Lemma cb_put_same (l : list Z) (i : nat) (x : Z) :
  (i < length l)%nat -> nth i (CircularBuffer.put l i x) 0 = x.
Proof.
  revert i. induction l as [|y l IH]; intros [|i] H; simpl in *; try lia.
  apply IH. lia.
Qed.

Lemma cb_put_other (l : list Z) (i j : nat) (x : Z) :
  i <> j -> nth i (CircularBuffer.put l j x) 0 = nth i l 0.
Proof.
  revert i j. induction l as [|y l IH]; intros [|i] [|j] H; simpl;
    try reflexivity; try congruence.
  apply IH. congruence.
Qed.

(** Positions that a copy does not reach keep their byte. *)
Lemma cb_copy_in_miss (b : CircularBuffer.t) (data l : list Z) (c : Z) (i : nat) :
  (forall j, (j < length data)%nat ->
             Z.to_nat (CircularBuffer.advance b c (Z.of_nat j)) <> i) ->
  0 < CircularBuffer.slots b -> 0 <= c < CircularBuffer.slots b ->
  nth i (CircularBuffer.copy_in b l c data) 0 = nth i l 0.
Proof.
  revert l c. induction data as [|x data IH]; intros l c Hmiss Hm Hc; simpl.
  - reflexivity.
  - rewrite IH.
    + apply cb_put_other. intros ->.
      apply (Hmiss 0%nat); [simpl; lia|].
      unfold CircularBuffer.advance. simpl. rewrite Z.add_0_r, Z.mod_small by lia.
      reflexivity.
    + intros j Hj. specialize (Hmiss (S j) ltac:(simpl; lia)).
      intros E. apply Hmiss. rewrite <- E.
      unfold CircularBuffer.advance. rewrite Zplus_mod_idemp_l.
      f_equal. f_equal. lia.
    + exact Hm.
    + unfold CircularBuffer.advance. apply Z.mod_pos_bound. exact Hm.
Qed.

(** The [j]-th byte of a copy that does not lap itself lands [j] places
    after the cursor. *)
Lemma cb_copy_in_hit (b : CircularBuffer.t) (data l : list Z) (c : Z) (j : nat) :
  (j < length data)%nat ->
  Z.of_nat (length data) <= CircularBuffer.slots b ->
  Z.of_nat (length l) = CircularBuffer.slots b ->
  0 <= c < CircularBuffer.slots b ->
  nth (Z.to_nat (CircularBuffer.advance b c (Z.of_nat j)))
      (CircularBuffer.copy_in b l c data) 0
  = nth j data 0.
Proof.
  revert l c j. induction data as [|x data IH]; intros l c j Hj Hlen Hl Hc;
    simpl in Hj; [lia|].
  assert (Hm : 0 < CircularBuffer.slots b) by lia.
  simpl CircularBuffer.copy_in. destruct j as [|j].
  - rewrite cb_copy_in_miss.
    + unfold CircularBuffer.advance. simpl. rewrite Z.add_0_r, Z.mod_small by lia.
      apply cb_put_same. lia.
    + intros k Hk. unfold CircularBuffer.advance.
      rewrite Zplus_mod_idemp_l. simpl Z.of_nat. rewrite Z.add_0_r.
      rewrite (Z.mod_small c) by lia.
      simpl in Hlen.
      intros E. apply Z2Nat.inj in E;
        [|apply Z.mod_pos_bound; lia|lia].
      destruct (Z_lt_ge_dec (c + 1 + Z.of_nat k) (CircularBuffer.slots b)).
      * rewrite Z.mod_small in E by lia. lia.
      * assert (Hq : (c + 1 + Z.of_nat k) mod CircularBuffer.slots b
                     = c + 1 + Z.of_nat k - CircularBuffer.slots b)
          by (symmetry; apply (Z.mod_unique_pos _ _ 1); lia).
        lia.
    + exact Hm.
    + unfold CircularBuffer.advance. apply Z.mod_pos_bound. exact Hm.
  - replace (CircularBuffer.advance b c (Z.of_nat (S j)))
      with (CircularBuffer.advance b (CircularBuffer.advance b c 1) (Z.of_nat j)).
    + apply IH.
      * lia.
      * simpl in Hlen. lia.
      * rewrite cb_put_length. exact Hl.
      * unfold CircularBuffer.advance. apply Z.mod_pos_bound. exact Hm.
    + unfold CircularBuffer.advance. rewrite Zplus_mod_idemp_l.
      f_equal. lia.
Qed.

Lemma map_seq_from (f : nat -> Z) (a len : nat) :
  map f (seq a len) = map (fun k => f (a + k)%nat) (seq 0 len).
Proof.
  revert a. induction len as [|len IH]; intros a; simpl.
  - reflexivity.
  - rewrite Nat.add_0_r. f_equal.
    rewrite (IH (S a)), <- (seq_shift len 0), map_map.
    apply map_ext. intros k. f_equal. lia.
Qed.

Lemma list_map_nth (l : list Z) :
  map (fun j => nth j l 0) (seq 0 (length l)) = l.
Proof.
  induction l as [|x l IH]; simpl; [reflexivity|].
  f_equal. rewrite <- seq_shift, map_map. exact IH.
Qed.

Lemma cb_available_Read (b : CircularBuffer.t) (n : Z) :
  CircularBuffer.wf b ->
  CircularBuffer.available (snd (CircularBuffer.Read b n))
  = CircularBuffer.available b
    - Z.of_nat (length (fst (CircularBuffer.Read b n))).
Proof.
  intros Hwf. pose proof (cb_available_range b Hwf) as Ha.
  rewrite cb_Read_length. destruct Hwf as (Hc & Hr & Hw & _).
  unfold CircularBuffer.Read, CircularBuffer.available in *. simpl.
  unfold CircularBuffer.advance, CircularBuffer.slots in *. simpl.
  set (m := CircularBuffer.capacity b + 1) in *.
  set (k := Z.of_nat (Nat.min _ _)).
  assert (Hk : 0 <= k <= (CircularBuffer.write_cursor b
                          - CircularBuffer.read_cursor b) mod m)
    by (unfold k; lia).
  rewrite Zminus_mod_idemp_r.
  replace (CircularBuffer.write_cursor b - (CircularBuffer.read_cursor b + k))
    with (CircularBuffer.write_cursor b - CircularBuffer.read_cursor b - k)
    by lia.
  rewrite <- Zminus_mod_idemp_l. apply Z.mod_small. lia.
Qed.

(** A read takes the oldest bytes and leaves the others in place. *)
Lemma ring_Read_takes (b : CircularBuffer.t) (n : Z) :
  fst (CircularBuffer.Read b n) = firstn (Z.to_nat n) (ring_contents b).
Proof.
  unfold CircularBuffer.Read, ring_contents. simpl.
  rewrite firstn_map, firstn_seq_min. reflexivity.
Qed.

Lemma ring_Read_leaves (b : CircularBuffer.t) (n : Z) :
  CircularBuffer.wf b ->
  ring_contents (snd (CircularBuffer.Read b n))
  = skipn (Z.to_nat n) (ring_contents b).
Proof.
  intros Hwf. pose proof (cb_available_Read b n Hwf) as Hav.
  pose proof (cb_available_range b Hwf) as Ha.
  rewrite cb_Read_length in Hav.
  unfold ring_contents at 1. rewrite Hav. clear Hav.
  unfold ring_contents. rewrite skipn_map, skipn_seq. simpl Nat.add.
  set (A := Z.to_nat (CircularBuffer.available b)).
  set (k := Z.to_nat n).
  replace (Z.to_nat (CircularBuffer.available b - Z.of_nat (Nat.min k A)))
    with (A - Nat.min k A)%nat by (unfold A; lia).
  destruct (Nat.le_gt_cases A k) as [Hle|Hgt].
  - rewrite Nat.min_r by exact Hle.
    replace (A - A)%nat with 0%nat by lia.
    replace (A - k)%nat with 0%nat by lia. reflexivity.
  - rewrite Nat.min_l by lia.
    rewrite (map_seq_from _ k). apply map_ext. intros j.
    unfold CircularBuffer.Read. simpl.
    unfold CircularBuffer.advance, CircularBuffer.slots. simpl.
    rewrite Nat.min_l by (fold A; fold k; lia).
    rewrite Zplus_mod_idemp_l. do 3 f_equal. fold k. lia.
Qed.

Lemma cb_available_Write (b : CircularBuffer.t) (data : list Z) (count : Z) :
  CircularBuffer.wf b ->
  CircularBuffer.available (snd (CircularBuffer.Write b data count))
  = CircularBuffer.available b + fst (CircularBuffer.Write b data count).
Proof.
  intros Hwf. pose proof (cb_available_range b Hwf) as Ha.
  destruct Hwf as (Hc & Hr & Hw & _).
  unfold CircularBuffer.Write. simpl.
  set (w := Z.of_nat (length (firstn _ data))).
  assert (Hw' : 0 <= w <= CircularBuffer.remaining b).
  { unfold w. rewrite length_firstn. unfold CircularBuffer.remaining in *. lia. }
  unfold CircularBuffer.remaining in Hw'.
  unfold CircularBuffer.available, CircularBuffer.advance,
    CircularBuffer.slots in *. simpl.
  set (m := CircularBuffer.capacity b + 1) in *.
  rewrite Zminus_mod_idemp_l.
  replace (CircularBuffer.write_cursor b + w - CircularBuffer.read_cursor b)
    with (CircularBuffer.write_cursor b - CircularBuffer.read_cursor b + w)
    by lia.
  rewrite <- Zplus_mod_idemp_l. apply Z.mod_small. lia.
Qed.

Lemma cb_advance_same_slots (b' b : CircularBuffer.t) (c n : Z) :
  CircularBuffer.capacity b' = CircularBuffer.capacity b ->
  CircularBuffer.advance b' c n = CircularBuffer.advance b c n.
Proof.
  intros H. unfold CircularBuffer.advance, CircularBuffer.slots.
  rewrite H. reflexivity.
Qed.

Lemma cb_cursor_gap (b : CircularBuffer.t) :
  CircularBuffer.wf b ->
  CircularBuffer.advance b (CircularBuffer.read_cursor b)
    (CircularBuffer.available b)
  = CircularBuffer.write_cursor b.
Proof.
  intros (Hc & Hr & Hw & _).
  unfold CircularBuffer.advance, CircularBuffer.available,
    CircularBuffer.slots.
  rewrite Zplus_mod_idemp_r.
  replace (CircularBuffer.read_cursor b
           + (CircularBuffer.write_cursor b - CircularBuffer.read_cursor b))
    with (CircularBuffer.write_cursor b) by lia.
  apply Z.mod_small. unfold CircularBuffer.slots in Hw. exact Hw.
Qed.

(** A write appends what it accepts. *)
Lemma ring_Write_appends (b : CircularBuffer.t) (data : list Z) (count : Z) :
  CircularBuffer.wf b ->
  ring_contents (snd (CircularBuffer.Write b data count))
  = ring_contents b
    ++ firstn (Z.to_nat (fst (CircularBuffer.Write b data count))) data.
Proof.
  intros Hwf. pose proof (cb_available_Write b data count Hwf) as Hav.
  pose proof (cb_available_range b Hwf) as Ha.
  pose proof (cb_cursor_gap b Hwf) as Hgap.
  unfold ring_contents at 1. rewrite Hav. clear Hav.
  destruct Hwf as (Hc & Hr & Hw & Hl).
  unfold CircularBuffer.Write. simpl.
  set (bytes := firstn _ data).
  assert (Hb : Z.of_nat (length bytes) <= CircularBuffer.remaining b).
  { unfold bytes. rewrite length_firstn. unfold CircularBuffer.remaining in *. lia. }
  assert (Hfb : firstn (Z.to_nat (Z.of_nat (length bytes))) data = bytes).
  { rewrite Nat2Z.id. unfold bytes.
    rewrite length_firstn, <- firstn_firstn, firstn_all. reflexivity. }
  rewrite Hfb. clear Hfb.
  unfold CircularBuffer.remaining in Hb.
  rewrite Z2Nat.inj_add, Nat2Z.id, seq_app, map_app by lia.
  assert (Hm : 0 < CircularBuffer.slots b) by (unfold CircularBuffer.slots; lia).
  f_equal.
  - unfold ring_contents. apply map_ext_in. intros k Hk. apply in_seq in Hk.
    rewrite (cb_advance_same_slots _ b) by reflexivity.
    apply cb_copy_in_miss; [|exact Hm|exact Hw].
    intros j Hj E.
    apply Z2Nat.inj in E;
      try (unfold CircularBuffer.advance; apply Z.mod_pos_bound; exact Hm).
    rewrite <- Hgap in E. unfold CircularBuffer.advance in E.
    rewrite Zplus_mod_idemp_l in E.
    unfold CircularBuffer.slots in *.
    set (m := CircularBuffer.capacity b + 1) in *.
    set (r := CircularBuffer.read_cursor b) in *.
    set (A := CircularBuffer.available b) in *.
    assert (Hd : (r + A + Z.of_nat j - (r + Z.of_nat k)) mod m = 0).
    { rewrite Zminus_mod, E, Z.sub_diag. apply Zmod_0_l. }
    replace (r + A + Z.of_nat j - (r + Z.of_nat k))
      with (A + Z.of_nat j - Z.of_nat k) in Hd by lia.
    rewrite Z.mod_small in Hd by lia. lia.
  - simpl Nat.add. rewrite map_seq_from.
    rewrite <- (list_map_nth bytes) at 2.
    apply map_ext_in. intros j Hj. apply in_seq in Hj.
    rewrite (cb_advance_same_slots _ b) by reflexivity.
    replace (CircularBuffer.advance b (CircularBuffer.read_cursor b)
               (Z.of_nat (Z.to_nat (CircularBuffer.available b) + j)))
      with (CircularBuffer.advance b (CircularBuffer.write_cursor b)
              (Z.of_nat j)).
    + apply cb_copy_in_hit; unfold CircularBuffer.slots in *; lia.
    + rewrite <- Hgap. unfold CircularBuffer.advance.
      rewrite Zplus_mod_idemp_l. f_equal. lia.
Qed.

Lemma cb_room_if_not_full (b : CircularBuffer.t) :
  CircularBuffer.wf b -> CircularBuffer.IsFull b = false ->
  0 < CircularBuffer.remaining b.
Proof.
  intros Hwf Hnf. pose proof (cb_available_range b Hwf) as Ha.
  destruct Hwf as (Hc & Hr & Hw & _).
  unfold CircularBuffer.remaining.
  destruct (Z.eq_dec (CircularBuffer.available b) (CircularBuffer.capacity b))
    as [E|E]; [|lia].
  exfalso. apply Z.eqb_neq in Hnf. apply Hnf.
  unfold CircularBuffer.advance, CircularBuffer.available,
    CircularBuffer.slots in *.
  set (m := CircularBuffer.capacity b + 1) in *.
  set (r := CircularBuffer.read_cursor b) in *.
  set (w := CircularBuffer.write_cursor b) in *.
  destruct (Z_le_gt_dec r w).
  - rewrite Z.mod_small in E by lia.
    assert (w + 1 = m) as -> by lia. rewrite Z_mod_same_full. lia.
  - assert (Hq : (w - r) mod m = w - r + m)
      by (symmetry; apply (Z.mod_unique_pos _ _ (-1)); lia).
    rewrite Z.mod_small by lia. lia.
Qed.

Lemma cb_available_nonempty (b : CircularBuffer.t) :
  CircularBuffer.wf b -> CircularBuffer.IsEmpty b = false ->
  0 < CircularBuffer.available b.
Proof.
  intros Hwf Hne. pose proof (cb_available_range b Hwf) as Ha.
  destruct Hwf as (Hc & Hr & Hw & _).
  destruct (Z.eq_dec (CircularBuffer.available b) 0) as [E|E]; [|lia].
  exfalso. apply Z.eqb_neq in Hne. apply Hne.
  unfold CircularBuffer.available, CircularBuffer.slots in *.
  set (m := CircularBuffer.capacity b + 1) in *.
  set (r := CircularBuffer.read_cursor b) in *.
  set (w := CircularBuffer.write_cursor b) in *.
  destruct (Z_le_gt_dec r w).
  - rewrite Z.mod_small in E by lia. lia.
  - assert (Hq : (w - r) mod m = w - r + m)
      by (symmetry; apply (Z.mod_unique_pos _ _ (-1)); lia).
    lia.
Qed.

Lemma cb_Write_zero (b : CircularBuffer.t) (data : list Z) (count : Z) :
  CircularBuffer.wf b ->
  fst (CircularBuffer.Write b data count) = 0 ->
  snd (CircularBuffer.Write b data count) = b.
Proof.
  intros (Hc & Hr & Hw & _). unfold CircularBuffer.Write. simpl. intros H.
  rewrite H. destruct (firstn _ data); [|discriminate]. simpl.
  rewrite cb_advance_0 by exact Hw. destruct b; reflexivity.
Qed.

Lemma ring_Write_one (b : CircularBuffer.t) (x : Z) :
  CircularBuffer.wf b ->
  ring_contents (snd (CircularBuffer.Write b [x] 1))
  = ring_contents b ++ (if CircularBuffer.IsFull b then [] else [x]).
Proof.
  intros Hwf. rewrite (ring_Write_appends b [x] 1 Hwf). f_equal.
  destruct (CircularBuffer.IsFull b) eqn:E.
  - rewrite (cb_Write_full b [x] 1 Hwf E). reflexivity.
  - pose proof (cb_room_if_not_full b Hwf E) as Hroom.
    unfold CircularBuffer.Write. simpl fst.
    destruct (Z.to_nat (CircularBuffer.remaining b)) eqn:En; [lia|].
    reflexivity.
Qed.

Lemma ring_create_empty (n : Z) :
  0 <= n -> ring_contents (CircularBuffer.create n) = [].
Proof.
  intros Hn. unfold ring_contents.
  replace (CircularBuffer.available (CircularBuffer.create n)) with 0;
    [reflexivity|].
  unfold CircularBuffer.available. simpl. symmetry. apply Zmod_0_l.
Qed.

Lemma skipn_nth_cons (l : list Z) (p : nat) :
  (p < length l)%nat -> skipn p l = nth p l 0 :: skipn (S p) l.
Proof.
  revert p. induction l as [|x l IH]; intros [|p] H; simpl in *; try lia.
  - reflexivity.
  - apply IH. lia.
Qed.

Opaque CircularBuffer.Read CircularBuffer.Write.

Section DriverMore.
Context {P : Platform}.

Lemma InterruptHandler_exact (s : System) :
  serviced s UART_IT_TC UART_IT_TC = false ->
  exists s',
    InterruptHandler s = Ok s' /\
    error_ (uart1 s') = handler_error s /\
    os_signals s'
    = (if handler_flags s =? 0 then os_signals s
       else handler_flags s :: os_signals s) /\
    read_buffer_ (uart1 s')
    = (if serviced s UART_IT_RXNE UART_IT_RXNE
       then snd (CircularBuffer.Write (read_buffer_ (uart1 s))
                   [Z.land (RDR (huart1 s)) 255] 1)
       else read_buffer_ (uart1 s)) /\
    RQR (huart1 s')
    = (if serviced s UART_IT_RXNE UART_IT_RXNE
       then UART_RXDATA_FLUSH_REQUEST :: RQR (huart1 s)
       else RQR (huart1 s)) /\
    TDR (huart1 s')
    = (if serviced s UART_IT_TXE UART_IT_TXE && unsent s
       then nth (Z.to_nat (tx_progress_ (uart1 s))) (tx_data_ (uart1 s)) 0
            :: TDR (huart1 s)
       else TDR (huart1 s)) /\
    tx_progress_ (uart1 s')
    = (if serviced s UART_IT_TXE UART_IT_TXE && unsent s
       then tx_progress_ (uart1 s) + 1
       else tx_progress_ (uart1 s)) /\
    tx_pending_ (uart1 s')
    = (if serviced s UART_IT_TXE UART_IT_TXE && negb (unsent s)
       then false else tx_pending_ (uart1 s)) /\
    it_source (huart1 s') UART_IT_TXE
    = (if serviced s UART_IT_TXE UART_IT_TXE && negb (unsent s)
       then false else it_source (huart1 s) UART_IT_TXE) /\
    (forall it, it_pending (huart1 s') it
                = it_pending (huart1 s) it && negb (lowered s it)) /\
    RDR (huart1 s') = RDR (huart1 s) /\
    USART1_IRQn s' = USART1_IRQn s /\
    signalThread_ (uart1 s') = signalThread_ (uart1 s).
Proof.
  unfold handler_error, handler_flags, lowered, unsent, serviced.
  unfold InterruptHandler, isr_error, isr_receive, isr_transmit, isr_finish,
    osSignalSet, on_driver, on_uart, with_pending, with_source,
    __HAL_UART_GET_IT, __HAL_UART_GET_IT_SOURCE, __HAL_UART_CLEAR_FLAG,
    __HAL_UART_SEND_REQ, __HAL_UART_DISABLE_IT, write_TDR, override.
  intros Htc. simpl.
  destruct (it_pending (huart1 s) UART_IT_PE && it_source (huart1 s) UART_IT_PE)
    eqn:Epe; simpl;
  destruct (it_pending (huart1 s) UART_IT_FE && it_source (huart1 s) UART_IT_ERR)
    eqn:Efe; simpl;
  destruct (it_pending (huart1 s) UART_IT_NE && it_source (huart1 s) UART_IT_ERR)
    eqn:Ene; simpl;
  destruct (it_pending (huart1 s) UART_IT_ORE && it_source (huart1 s) UART_IT_ERR)
    eqn:Eore; simpl;
  (destruct (it_pending (huart1 s) UART_IT_RXNE
             && it_source (huart1 s) UART_IT_RXNE) eqn:Erx; simpl;
   [destruct (CircularBuffer.Write _ _ _) as [n rb]; simpl|]);
  (destruct (it_pending (huart1 s) UART_IT_TXE
             && it_source (huart1 s) UART_IT_TXE) eqn:Etx; simpl;
   [destruct (tx_progress_ (uart1 s) <? tx_length_ (uart1 s)) eqn:Elt; simpl|]);
  rewrite Htc; simpl;
  (eexists; split; [reflexivity|]); simpl;
  repeat match goal with |- _ /\ _ => split end;
  try reflexivity;
  intros [] ; simpl; rewrite ?andb_true_r, ?andb_false_r; try reflexivity.
Qed.
Lemma InterruptHandler_Ok_quiet (s s' : System) :
  InterruptHandler s = Ok s' -> serviced s UART_IT_TC UART_IT_TC = false.
Proof.
  intros H. unfold serviced, __HAL_UART_GET_IT, __HAL_UART_GET_IT_SOURCE.
  destruct (it_pending (huart1 s) UART_IT_TC) eqn:Ep; [|reflexivity].
  destruct (it_source (huart1 s) UART_IT_TC) eqn:Es; [|reflexivity].
  rewrite (InterruptHandler_fatal s Ep Es) in H. discriminate.
Qed.

(** The handler's result, when it returns, is the one described by
    [InterruptHandler_exact]. *)
Lemma InterruptHandler_Ok_exact (s s' : System) :
  InterruptHandler s = Ok s' ->
  error_ (uart1 s') = handler_error s /\
  os_signals s'
  = (if handler_flags s =? 0 then os_signals s
     else handler_flags s :: os_signals s) /\
  read_buffer_ (uart1 s')
  = (if serviced s UART_IT_RXNE UART_IT_RXNE
     then snd (CircularBuffer.Write (read_buffer_ (uart1 s))
                 [Z.land (RDR (huart1 s)) 255] 1)
     else read_buffer_ (uart1 s)) /\
  RQR (huart1 s')
  = (if serviced s UART_IT_RXNE UART_IT_RXNE
     then UART_RXDATA_FLUSH_REQUEST :: RQR (huart1 s)
     else RQR (huart1 s)) /\
  TDR (huart1 s')
  = (if serviced s UART_IT_TXE UART_IT_TXE && unsent s
     then nth (Z.to_nat (tx_progress_ (uart1 s))) (tx_data_ (uart1 s)) 0
          :: TDR (huart1 s)
     else TDR (huart1 s)) /\
  tx_progress_ (uart1 s')
  = (if serviced s UART_IT_TXE UART_IT_TXE && unsent s
     then tx_progress_ (uart1 s) + 1
     else tx_progress_ (uart1 s)) /\
  tx_pending_ (uart1 s')
  = (if serviced s UART_IT_TXE UART_IT_TXE && negb (unsent s)
     then false else tx_pending_ (uart1 s)) /\
  it_source (huart1 s') UART_IT_TXE
  = (if serviced s UART_IT_TXE UART_IT_TXE && negb (unsent s)
     then false else it_source (huart1 s) UART_IT_TXE) /\
  (forall it, it_pending (huart1 s') it
              = it_pending (huart1 s) it && negb (lowered s it)) /\
  RDR (huart1 s') = RDR (huart1 s) /\
  USART1_IRQn s' = USART1_IRQn s /\
  signalThread_ (uart1 s') = signalThread_ (uart1 s).
Proof.
  intros H.
  destruct (InterruptHandler_exact s (InterruptHandler_Ok_quiet s s' H))
    as (s'' & H'' & Hrest).
  rewrite H in H''. injection H'' as <-. exact Hrest.
Qed.

(** What no operation changes. *)
Lemma run_op_fixed (o : operation) (s s' : System) :
  run_op o s = Ok s' ->
  device_id_ (uart1 s') = device_id_ (uart1 s) /\
  signalThread_ (uart1 s') = signalThread_ (uart1 s) /\
  USART1_IRQn s' = USART1_IRQn s /\
  (forall it, it <> UART_IT_TXE ->
              it_source (huart1 s') it = it_source (huart1 s) it).
Proof.
  assert (Het : forall s1,
             device_id_ (uart1 (EnsureTransmission s1)) = device_id_ (uart1 s1) /\
             signalThread_ (uart1 (EnsureTransmission s1))
             = signalThread_ (uart1 s1) /\
             USART1_IRQn (EnsureTransmission s1) = USART1_IRQn s1 /\
             (forall it, it <> UART_IT_TXE ->
                         it_source (huart1 (EnsureTransmission s1)) it
                         = it_source (huart1 s1) it)).
  { intros s1.
    destruct (EnsureTransmission_frame s1)
      as (_ & _ & H1 & H2 & H3 & _ & _ & _ & _ & H4 & _).
    repeat split; assumption. }
  destruct o; simpl; intros H; try (injection H as <-).
  - unfold Read. destruct (CircularBuffer.Read _ _) as [bytes rb]. simpl.
    destruct (CircularBuffer.IsEmpty rb); repeat split.
  - unfold Write. destruct (CircularBuffer.Write _ _ _) as [n wb]. simpl.
    destruct (0 <? n); [apply (Het (on_driver (set_write_buffer_ wb) s))|];
      repeat split.
  - repeat split.
  - unfold Task_turn. destruct (status event); try (repeat split; fail).
    destruct (negb _); simpl; [apply Het|repeat split].
  - apply Het.
  - destruct (InterruptHandler_frame s s' H) as (Hsrc & _ & _ & Hid & _).
    destruct (InterruptHandler_Ok_exact s s' H)
      as (_ & _ & _ & _ & _ & _ & _ & _ & _ & _ & Hirq & Hthr).
    repeat split; assumption.
  - repeat split.
Qed.

Lemma run_fixed (ops : list operation) (s s' : System) :
  run ops s = Ok s' ->
  device_id_ (uart1 s') = device_id_ (uart1 s) /\
  signalThread_ (uart1 s') = signalThread_ (uart1 s) /\
  USART1_IRQn s' = USART1_IRQn s /\
  (forall it, it <> UART_IT_TXE ->
              it_source (huart1 s') it = it_source (huart1 s) it).
Proof.
  revert s. induction ops as [|o ops IH]; simpl; intros s H.
  - injection H as <-. repeat split.
  - destruct (run_op o s) as [s1|] eqn:E; [|discriminate].
    destruct (run_op_fixed o s s1 E) as (H1 & H2 & H3 & H4).
    destruct (IH s1 H) as (G1 & G2 & G3 & G4).
    rewrite G1, G2, G3, H1, H2, H3. repeat split.
    intros it Hit. rewrite (G4 it Hit). apply H4. exact Hit.
Qed.

Lemma Initialize_fatal_iff (device_id : Z) (s : System) :
  Initialize device_id s = Fatal <->
  device_id_ (uart1 s) <> kIllegalDeviceId \/ device_id = kIllegalDeviceId.
Proof.
  unfold Initialize.
  destruct (Z.eqb_spec (device_id_ (uart1 s)) kIllegalDeviceId) as [E|E];
    simpl.
  - destruct (Z.eqb_spec device_id kIllegalDeviceId) as [E'|E'].
    + split; [right; exact E'|reflexivity].
    + split; [discriminate|]. intros [H|H]; contradiction.
  - split; [left; exact E|reflexivity].
Qed.
Lemma EnsureTransmission_block_size (s : System) :
  Z.of_nat (length (tx_data_ (uart1 s))) = kTxBlockSize ->
  Z.of_nat (length (tx_data_ (uart1 (EnsureTransmission s)))) = kTxBlockSize.
Proof.
  intros Hl. unfold EnsureTransmission.
  destruct (tx_pending_ (uart1 s)); simpl.
  - destruct (CircularBuffer.IsFull _); exact Hl.
  - pose proof (cb_Read_length (write_buffer_ (uart1 s)) kTxBlockSize) as Hb.
    destruct (CircularBuffer.Read _ _) as [bytes wb]. simpl in *.
    destruct (0 <? _); simpl; rewrite length_app, length_skipn; lia.
Qed.

Lemma run_op_ok (o : operation) (s s' : System) :
  driver_ok s -> run_op o s = Ok s' -> driver_ok s'.
Proof.
  intros (Hwf & Hst & Hl) H. split; [|split].
  - apply (run_op_wf o s); assumption.
  - apply (run_op_staging o s); assumption.
  - destruct o; simpl in H; try (injection H as <-).
    + unfold Read. destruct (CircularBuffer.Read _ _) as [bytes rb]. simpl.
      destruct (CircularBuffer.IsEmpty rb); exact Hl.
    + unfold Write. destruct (CircularBuffer.Write _ _ _) as [n wb]. simpl.
      destruct (0 <? n); [apply EnsureTransmission_block_size|]; exact Hl.
    + exact Hl.
    + unfold Task_turn. destruct (status event); try exact Hl.
      destruct (negb _); simpl; [apply EnsureTransmission_block_size|];
        exact Hl.
    + apply EnsureTransmission_block_size. exact Hl.
    + destruct (InterruptHandler_frame s s' H)
        as (_ & _ & _ & _ & _ & Hd & _).
      rewrite Hd. exact Hl.
    + exact Hl.
Qed.

Lemma run_ok (ops : list operation) (s s' : System) :
  driver_ok s -> run ops s = Ok s' -> driver_ok s'.
Proof. apply (run_invariant driver_ok run_op_ok). Qed.

Lemma Initialize_ok
  (h : UART_HandleTypeDef) (tx_data0 : list Z)
  (tx_length0 tx_progress0 device_id : Z) (s0 : System) :
  it_source h UART_IT_TXE = false ->
  Z.of_nat (length tx_data0) = kTxBlockSize ->
  Initialize device_id (boot h tx_data0 tx_length0 tx_progress0) = Ok s0 ->
  driver_ok s0 /\
  tx_stream s0 = rev (TDR h) /\
  ring_contents (read_buffer_ (uart1 s0)) = [].
Proof.
  intros Hoff Hl. unfold Initialize.
  destruct (negb _); [discriminate|].
  destruct (device_id =? kIllegalDeviceId); [discriminate|].
  intros H. injection H as <-.
  unfold driver_ok, buffers_wf, staging_invariant, tx_stream, staged. simpl.
  rewrite !ring_create_empty by discriminate. rewrite app_nil_r.
  repeat split; try (apply cb_wf_create; discriminate); try discriminate;
    try assumption.
  symmetry. exact Hoff.
Qed.

(** [EnsureTransmission] moves bytes from the ring to the staging block
    without changing their order. *)
Lemma EnsureTransmission_stream (s : System) :
  driver_ok s ->
  staged (EnsureTransmission s)
  ++ ring_contents (write_buffer_ (uart1 (EnsureTransmission s)))
  = staged s ++ ring_contents (write_buffer_ (uart1 s)).
Proof.
  intros ((_ & Hwf) & _ & _). unfold EnsureTransmission, staged.
  destruct (tx_pending_ (uart1 s)) eqn:Ep; simpl.
  - destruct (CircularBuffer.IsFull _); simpl; rewrite Ep; reflexivity.
  - pose proof (ring_Read_takes (write_buffer_ (uart1 s)) kTxBlockSize) as Ht.
    pose proof (ring_Read_leaves (write_buffer_ (uart1 s)) kTxBlockSize Hwf)
      as Hv.
    destruct (CircularBuffer.Read _ _) as [bytes wb]. simpl in *.
    destruct (Z.ltb_spec 0 (Z.of_nat (length bytes))); simpl; rewrite Hv.
    + rewrite Nat2Z.id, firstn_app, firstn_all, Nat.sub_diag. simpl.
      rewrite app_nil_r, Ht. apply firstn_skipn.
    + rewrite Ep. simpl.
      rewrite <- (firstn_skipn (Z.to_nat kTxBlockSize)
                    (ring_contents (write_buffer_ (uart1 s)))) at 2.
      rewrite <- Ht. destruct bytes; [reflexivity|simpl in *; lia].
Qed.

Lemma EnsureTransmission_TDR (s : System) :
  TDR (huart1 (EnsureTransmission s)) = TDR (huart1 s).
Proof. apply (EnsureTransmission_frame s). Qed.

Lemma EnsureTransmission_tx_stream (s : System) :
  driver_ok s -> tx_stream (EnsureTransmission s) = tx_stream s.
Proof.
  intros Hok. unfold tx_stream.
  rewrite EnsureTransmission_TDR, (EnsureTransmission_stream s Hok).
  reflexivity.
Qed.

Lemma run_op_tx_stream (o : operation) (s s' : System) :
  driver_ok s -> run_op o s = Ok s' ->
  tx_stream s' = tx_stream s ++ accepted o s.
Proof.
  intros Hok H. pose proof Hok as ((Hrwf & Hwwf) & (Hm & Hb) & Hl).
  destruct o; simpl in H; try (injection H as <-); simpl accepted;
    rewrite ?app_nil_r.
  - unfold Read. destruct (CircularBuffer.Read _ _) as [bytes rb]. simpl.
    destruct (CircularBuffer.IsEmpty rb); reflexivity.
  - unfold Write.
    pose proof (ring_Write_appends (write_buffer_ (uart1 s))
                  (skipn (Z.to_nat offset) buffer) count Hwwf) as Hap.
    pose proof (cb_wf_Write (write_buffer_ (uart1 s))
                  (skipn (Z.to_nat offset) buffer) count Hwwf) as Hwf'.
    destruct (CircularBuffer.Write _ _ _) as [n wb]. simpl in *.
    assert (Hok1 : driver_ok (on_driver (set_write_buffer_ wb) s)).
    { split; [split; assumption|]. split; [split; assumption|exact Hl]. }
    assert (Hs1 : tx_stream (on_driver (set_write_buffer_ wb) s)
                  = tx_stream s
                    ++ firstn (Z.to_nat n) (skipn (Z.to_nat offset) buffer)).
    { unfold tx_stream, staged. simpl. rewrite Hap, !app_assoc. reflexivity. }
    destruct (0 <? n); [rewrite EnsureTransmission_tx_stream by exact Hok1|];
      exact Hs1.
  - reflexivity.
  - unfold Task_turn. destruct (status event); try reflexivity.
    destruct (negb _); [|reflexivity].
    apply (EnsureTransmission_tx_stream s Hok).
  - apply EnsureTransmission_tx_stream. exact Hok.
  - destruct (InterruptHandler_frame s s' H)
      as (_ & _ & Hwb & _ & Hlen & Hdata & _).
    destruct (InterruptHandler_Ok_exact s s' H)
      as (_ & _ & _ & _ & HT & Hp & Hpend & _).
    unfold tx_stream, staged. rewrite Hwb, Hlen, Hdata, HT, Hp, Hpend.
    unfold serviced, unsent, __HAL_UART_GET_IT, __HAL_UART_GET_IT_SOURCE.
    destruct (it_pending (huart1 s) UART_IT_TXE); simpl; [|reflexivity].
    destruct (it_source (huart1 s) UART_IT_TXE) eqn:Esrc; simpl;
      [|reflexivity].
    rewrite Hm. specialize (Hb Hm).
    destruct (Z.ltb_spec (tx_progress_ (uart1 s)) (tx_length_ (uart1 s)));
      simpl.
    + rewrite (skipn_nth_cons (firstn _ _) (Z.to_nat (tx_progress_ (uart1 s))))
        by (rewrite length_firstn; lia).
      rewrite nth_firstn.
      destruct (Nat.ltb_spec (Z.to_nat (tx_progress_ (uart1 s)))
                  (Z.to_nat (tx_length_ (uart1 s)))); [|lia].
      rewrite Z2Nat.inj_add by lia. simpl (Z.to_nat 1).
      rewrite Nat.add_1_r, <- app_assoc. reflexivity.
    + rewrite skipn_all2 by (rewrite length_firstn; lia). reflexivity.
  - reflexivity.
Qed.

Lemma run_tx_stream (ops : list operation) (s s' : System) :
  driver_ok s -> run ops s = Ok s' ->
  tx_stream s' = tx_stream s ++ along accepted ops s.
Proof.
  revert s. induction ops as [|o ops IH]; simpl; intros s Hok H.
  - injection H as <-. symmetry. apply app_nil_r.
  - destruct (run_op o s) as [s1|] eqn:E; [|discriminate].
    rewrite (IH s1 (run_op_ok o s s1 Hok E) H),
      (run_op_tx_stream o s s1 Hok E), app_assoc.
    reflexivity.
Qed.

Lemma run_op_rx_stream (o : operation) (s s' : System) :
  buffers_wf s -> run_op o s = Ok s' ->
  ring_contents (read_buffer_ (uart1 s)) ++ arrived o s
  = delivered o s ++ ring_contents (read_buffer_ (uart1 s')).
Proof.
  intros [Hrwf Hwwf] H.
  assert (Het : forall s1, read_buffer_ (uart1 (EnsureTransmission s1))
                           = read_buffer_ (uart1 s1)).
  { intros s1. apply (EnsureTransmission_frame s1). }
  destruct o; simpl in H; try (injection H as <-); simpl arrived;
    simpl delivered; rewrite ?app_nil_r.
  - unfold Read.
    pose proof (ring_Read_takes (read_buffer_ (uart1 s)) count) as Ht.
    pose proof (ring_Read_leaves (read_buffer_ (uart1 s)) count Hrwf) as Hv.
    destruct (CircularBuffer.Read _ _) as [bytes rb]. simpl in *.
    destruct (CircularBuffer.IsEmpty rb); simpl;
      rewrite Ht, Hv, firstn_skipn; reflexivity.
  - unfold Write. destruct (CircularBuffer.Write _ _ _) as [n wb]. simpl.
    destruct (0 <? n); [rewrite Het|]; reflexivity.
  - reflexivity.
  - unfold Task_turn. destruct (status event); try reflexivity.
    destruct (negb _); simpl; [rewrite Het|]; reflexivity.
  - rewrite Het. reflexivity.
  - destruct (InterruptHandler_Ok_exact s s' H) as (_ & _ & Hrb & _).
    rewrite Hrb.
    destruct (serviced s UART_IT_RXNE UART_IT_RXNE); simpl.
    + rewrite (ring_Write_one _ _ Hrwf).
      destruct (CircularBuffer.IsFull _); reflexivity.
    + apply app_nil_r.
  - reflexivity.
Qed.

Lemma run_rx_stream (ops : list operation) (s s' : System) :
  buffers_wf s -> run ops s = Ok s' ->
  ring_contents (read_buffer_ (uart1 s)) ++ along arrived ops s
  = along delivered ops s ++ ring_contents (read_buffer_ (uart1 s')).
Proof.
  revert s. induction ops as [|o ops IH]; simpl; intros s Hok H.
  - injection H as <-. apply app_nil_r.
  - destruct (run_op o s) as [s1|] eqn:E; [|discriminate].
    rewrite app_assoc, (run_op_rx_stream o s s1 Hok E), <- !app_assoc.
    f_equal. apply IH; [apply (run_op_wf o s); assumption | exact H].
Qed.
Lemma Initialize_sources (device_id : Z) (s s0 : System) :
  Initialize device_id s = Ok s0 ->
  it_source (huart1 s0) UART_IT_PE = true /\
  it_source (huart1 s0) UART_IT_ERR = true /\
  it_source (huart1 s0) UART_IT_RXNE = true /\
  signalThread_ (uart1 s0) = true.
Proof.
  unfold Initialize.
  destruct (negb _); [discriminate|].
  destruct (device_id =? kIllegalDeviceId); [discriminate|].
  intros H. injection H as <-. repeat split.
Qed.

Lemma handler_flags_error_bit (s : System) :
  Z.testbit (handler_flags s) 3
  = serviced s UART_IT_PE UART_IT_PE || serviced s UART_IT_FE UART_IT_ERR
    || serviced s UART_IT_NE UART_IT_ERR || serviced s UART_IT_ORE UART_IT_ERR.
Proof.
  unfold handler_flags.
  destruct (serviced s UART_IT_PE UART_IT_PE),
    (serviced s UART_IT_FE UART_IT_ERR), (serviced s UART_IT_NE UART_IT_ERR),
    (serviced s UART_IT_ORE UART_IT_ERR),
    (serviced s UART_IT_RXNE UART_IT_RXNE),
    (serviced s UART_IT_TXE UART_IT_TXE && negb (unsent s)); reflexivity.
Qed.

Lemma handler_flags_shape (s : System) :
  Z.land (handler_flags s)
         (Z.lor kReceivedBit (Z.lor kTransmittedBit kErrorBit))
  = handler_flags s.
Proof.
  unfold handler_flags.
  destruct (serviced s UART_IT_PE UART_IT_PE),
    (serviced s UART_IT_FE UART_IT_ERR), (serviced s UART_IT_NE UART_IT_ERR),
    (serviced s UART_IT_ORE UART_IT_ERR),
    (serviced s UART_IT_RXNE UART_IT_RXNE),
    (serviced s UART_IT_TXE UART_IT_TXE && negb (unsent s)); reflexivity.
Qed.

Lemma lor_if_bits (c : bool) (code e n : Z) :
  Z.testbit (lor_if c code e) n = Z.testbit e n || (c && Z.testbit code n).
Proof.
  destruct c; simpl.
  - apply Z.lor_spec.
  - symmetry. apply orb_false_r.
Qed.

Lemma list_not_longer (A : Type) (x : A) (l : list A) : l <> x :: l.
Proof.
  intros H. apply (f_equal (@length A)) in H. simpl in H. lia.
Qed.

Lemma run_op_error_bits (o : operation) (s s' : System) (n : Z) :
  run_op o s = Ok s' ->
  Z.testbit (error_ (uart1 s)) n = true ->
  Z.testbit (error_ (uart1 s')) n = true.
Proof.
  intros H.
  assert (Het : forall s1, error_ (uart1 (EnsureTransmission s1))
                           = error_ (uart1 s1)).
  { intros s1. apply (EnsureTransmission_frame s1). }
  destruct o; simpl in H; try (injection H as <-).
  - unfold Read. destruct (CircularBuffer.Read _ _) as [bytes rb]. simpl.
    destruct (CircularBuffer.IsEmpty rb); trivial.
  - unfold Write. destruct (CircularBuffer.Write _ _ _) as [m wb]. simpl.
    destruct (0 <? m); [rewrite Het|]; trivial.
  - trivial.
  - unfold Task_turn. destruct (status event); trivial.
    destruct (negb _); simpl; [rewrite Het|]; trivial.
  - rewrite Het. trivial.
  - destruct (InterruptHandler_frame s s' H) as (_ & (codes & _ & ->) & _).
    apply fold_lor_keeps_bits.
  - trivial.
Qed.

(** ** Further properties of the driver *)

(** X1.  Once [Initialize] has succeeded, a second [Initialize] is fatal
    in every state the driver can reach, whatever device id it is given. *)
Theorem Initialize_twice_is_fatal
  (device_id again : Z) (s_boot s0 s : System) :
  Initialize device_id s_boot = Ok s0 ->
  reachable s0 s ->
  Initialize again s = Fatal.
Proof.
  intros Hinit [ops Hrun].
  destruct (Initialize_effect _ _ _ Hinit) as (_ & _ & _ & Hid & Hlegal & _).
  destruct (run_fixed ops s0 s Hrun) as (Hsame & _).
  apply Initialize_fatal_iff. left. rewrite Hsame, Hid. exact Hlegal.
Qed.

(** X2.  After [Initialize] the parity-error, error and
    receive-data-available interrupt sources and the interrupt line stay
    enabled, the task exists and the device id is the one given, in every
    state the driver can reach. *)
Theorem Initialize_arms_the_receiver
  (device_id : Z) (s_boot s0 s : System) :
  Initialize device_id s_boot = Ok s0 ->
  reachable s0 s ->
  it_source (huart1 s) UART_IT_PE = true /\
  it_source (huart1 s) UART_IT_ERR = true /\
  it_source (huart1 s) UART_IT_RXNE = true /\
  USART1_IRQn s = true /\
  signalThread_ (uart1 s) = true /\
  device_id_ (uart1 s) = device_id.
Proof.
  intros Hinit [ops Hrun].
  destruct (Initialize_effect _ _ _ Hinit) as (_ & _ & _ & Hid & _ & Hirq).
  destruct (Initialize_sources _ _ _ Hinit) as (Hpe & Herr & Hrx & Hthr).
  destruct (run_fixed ops s0 s Hrun) as (Hsame & Hthr' & Hirq' & Hsrc).
  rewrite !Hsrc by discriminate. rewrite Hirq', Hthr', Hsame.
  repeat split; assumption.
Qed.

(** X3.  A [Write] onto a full transmit ring returns 0, and a [Write]
    that returns 0 leaves the whole system as it was. *)
Theorem Write_rejected_is_noop
  (buffer : list Z) (offset count : Z) (s : System) :
  CircularBuffer.wf (write_buffer_ (uart1 s)) ->
  (CircularBuffer.IsFull (write_buffer_ (uart1 s)) = true ->
   fst (Write buffer offset count s) = 0) /\
  (fst (Write buffer offset count s) = 0 ->
   snd (Write buffer offset count s) = s).
Proof.
  intros Hwf. unfold Write.
  pose proof (cb_Write_full (write_buffer_ (uart1 s))
                (skipn (Z.to_nat offset) buffer) count Hwf) as Hfull.
  pose proof (cb_Write_zero (write_buffer_ (uart1 s))
                (skipn (Z.to_nat offset) buffer) count Hwf) as Hzero.
  destruct (CircularBuffer.Write _ _ _) as [n wb]. simpl in *. split.
  - intros E. specialize (Hfull E). injection Hfull as -> _. reflexivity.
  - intros ->. rewrite (Hzero eq_refl). simpl.
    destruct s as [d h irq dm sg]. destruct d. reflexivity.
Qed.

(** X4.  After a [Write] that accepted at least one byte a transmission
    is pending and the transmit-empty interrupt source is enabled. *)
Theorem Write_starts_transmission
  (buffer : list Z) (offset count : Z) (s : System) :
  driver_ok s ->
  0 < kTxBlockSize ->
  0 < fst (Write buffer offset count s) ->
  tx_pending_ (uart1 (snd (Write buffer offset count s))) = true /\
  it_source (huart1 (snd (Write buffer offset count s))) UART_IT_TXE = true.
Proof.
  intros ((_ & Hwf) & (Hm & _) & _) Hk. unfold Write.
  pose proof (cb_available_Write (write_buffer_ (uart1 s))
                (skipn (Z.to_nat offset) buffer) count Hwf) as Hav.
  pose proof (cb_available_range (write_buffer_ (uart1 s)) Hwf) as Ha.
  destruct (CircularBuffer.Write _ _ _) as [n wb]. simpl in *. intros Hn.
  rewrite (proj2 (Z.ltb_lt 0 n) Hn). unfold EnsureTransmission. simpl.
  destruct (tx_pending_ (uart1 s)) eqn:Ep; simpl.
  - destruct (CircularBuffer.IsFull wb); simpl; rewrite Ep, <- Hm; auto.
  - pose proof (cb_Read_length wb kTxBlockSize) as Hl.
    destruct (CircularBuffer.Read _ _) as [bytes wb']. simpl in *.
    rewrite (proj2 (Z.ltb_lt 0 (Z.of_nat (length bytes)))) by lia.
    simpl. auto.
Qed.
(** X5.  In every state reached from an initialised driver, when the
    handler is about to read [tx_data_[tx_progress_]] (transmit-empty
    condition pending, its source enabled, progress below length), the
    index lies inside the staging block of [kTxBlockSize] bytes. *)
Theorem staging_read_in_bounds
  (h : UART_HandleTypeDef) (tx_data0 : list Z)
  (tx_length0 tx_progress0 device_id : Z) (s0 s : System) :
  it_source h UART_IT_TXE = false ->
  Z.of_nat (length tx_data0) = kTxBlockSize ->
  Initialize device_id (boot h tx_data0 tx_length0 tx_progress0) = Ok s0 ->
  reachable s0 s ->
  serviced s UART_IT_TXE UART_IT_TXE = true ->
  unsent s = true ->
  0 <= tx_progress_ (uart1 s) < Z.of_nat (length (tx_data_ (uart1 s))) /\
  Z.of_nat (length (tx_data_ (uart1 s))) = kTxBlockSize.
Proof.
  intros Hoff Hl Hinit [ops Hrun] Hserv Huns.
  destruct (Initialize_ok h tx_data0 tx_length0 tx_progress0 device_id s0
              Hoff Hl Hinit) as (Hok & _).
  destruct (run_ok ops s0 s Hok Hrun) as (_ & (Hm & Hb) & Hlen).
  unfold serviced, __HAL_UART_GET_IT_SOURCE in Hserv.
  apply andb_prop in Hserv. destruct Hserv as [_ Hsrc].
  rewrite Hsrc in Hm. specialize (Hb Hm).
  unfold unsent in Huns. apply Z.ltb_lt in Huns. lia.
Qed.

(** X6.  When the handler returns, [error_] holds exactly the bits it
    held before and the bits of the codes of the error conditions that
    were pending with their source enabled; each such condition has its
    flag lowered; and the task is signalled with the error bit (bit 3)
    exactly when there was such a condition. *)
Theorem InterruptHandler_records_errors (s : System) :
  serviced s UART_IT_TC UART_IT_TC = false ->
  exists s',
    InterruptHandler s = Ok s' /\
    (forall n,
        Z.testbit (error_ (uart1 s')) n
        = Z.testbit (error_ (uart1 s)) n
          || (serviced s UART_IT_PE UART_IT_PE
              && Z.testbit HAL_UART_ERROR_PE n)
          || (serviced s UART_IT_FE UART_IT_ERR
              && Z.testbit HAL_UART_ERROR_FE n)
          || (serviced s UART_IT_NE UART_IT_ERR
              && Z.testbit HAL_UART_ERROR_NE n)
          || (serviced s UART_IT_ORE UART_IT_ERR
              && Z.testbit HAL_UART_ERROR_ORE n)) /\
    (serviced s UART_IT_PE UART_IT_PE = true ->
     it_pending (huart1 s') UART_IT_PE = false) /\
    (serviced s UART_IT_FE UART_IT_ERR = true ->
     it_pending (huart1 s') UART_IT_FE = false) /\
    (serviced s UART_IT_NE UART_IT_ERR = true ->
     it_pending (huart1 s') UART_IT_NE = false) /\
    (serviced s UART_IT_ORE UART_IT_ERR = true ->
     it_pending (huart1 s') UART_IT_ORE = false) /\
    (serviced s UART_IT_PE UART_IT_PE || serviced s UART_IT_FE UART_IT_ERR
     || serviced s UART_IT_NE UART_IT_ERR || serviced s UART_IT_ORE UART_IT_ERR
     = true ->
     exists flags, os_signals s' = flags :: os_signals s /\
                   Z.testbit flags 3 = true) /\
    (serviced s UART_IT_PE UART_IT_PE || serviced s UART_IT_FE UART_IT_ERR
     || serviced s UART_IT_NE UART_IT_ERR || serviced s UART_IT_ORE UART_IT_ERR
     = false ->
     forall flags, os_signals s' = flags :: os_signals s ->
                   Z.testbit flags 3 = false).
Proof.
  intros Htc.
  destruct (InterruptHandler_exact s Htc)
    as (s' & Hs' & Herr & Hsig & _ & _ & _ & _ & _ & _ & Hlow & _).
  exists s'. split; [exact Hs'|]. split; [|split; [|split; [|split; [|split]]]].
  - intros n. rewrite Herr. unfold handler_error.
    rewrite !lor_if_bits. reflexivity.
  - intros E. rewrite Hlow. simpl. rewrite E. apply andb_false_r.
  - intros E. rewrite Hlow. simpl. rewrite E. apply andb_false_r.
  - intros E. rewrite Hlow. simpl. rewrite E. apply andb_false_r.
  - intros E. rewrite Hlow. simpl. rewrite E. apply andb_false_r.
  - pose proof (handler_flags_error_bit s) as Hbit. split.
    + intros Hany. rewrite Hany in Hbit.
      destruct (Z.eqb_spec (handler_flags s) 0) as [E|E].
      * rewrite E in Hbit. discriminate.
      * exists (handler_flags s). split; assumption.
    + intros Hnone flags Hfl. rewrite Hnone in Hbit. rewrite Hsig in Hfl.
      destruct (handler_flags s =? 0).
      * exfalso. apply (list_not_longer Z flags (os_signals s)). exact Hfl.
      * injection Hfl as <-. exact Hbit.
Qed.

(** X7.  An interrupt with no condition both pending and enabled is a
    no-op: the handler returns and nothing has changed, no signal is
    sent. *)
Theorem spurious_interrupt_is_noop (s : System) :
  serviced s UART_IT_PE UART_IT_PE = false ->
  serviced s UART_IT_FE UART_IT_ERR = false ->
  serviced s UART_IT_NE UART_IT_ERR = false ->
  serviced s UART_IT_ORE UART_IT_ERR = false ->
  serviced s UART_IT_RXNE UART_IT_RXNE = false ->
  serviced s UART_IT_TXE UART_IT_TXE = false ->
  serviced s UART_IT_TC UART_IT_TC = false ->
  InterruptHandler s = Ok s.
Proof.
  unfold serviced. intros Hpe Hfe Hne Hore Hrx Htx Htc.
  unfold InterruptHandler, isr_error, isr_receive, isr_transmit, isr_finish.
  rewrite Hpe, Hfe, Hne, Hore, Hrx, Htx, Htc. reflexivity.
Qed.

(** X8.  The handler never calls the device manager, never touches the
    transmit ring, the device id or the bytes and the length of the
    staging block, and never enables an interrupt source; it signals the
    task at most once, and then with a non-empty set of bits among
    received, transmitted and error. *)
Theorem InterruptHandler_keeps_away (s s' : System) :
  InterruptHandler s = Ok s' ->
  devmgr s' = devmgr s /\
  write_buffer_ (uart1 s') = write_buffer_ (uart1 s) /\
  device_id_ (uart1 s') = device_id_ (uart1 s) /\
  tx_data_ (uart1 s') = tx_data_ (uart1 s) /\
  tx_length_ (uart1 s') = tx_length_ (uart1 s) /\
  (forall it, it_source (huart1 s') it = true ->
              it_source (huart1 s) it = true) /\
  (os_signals s' = os_signals s \/
   exists flags,
     os_signals s' = flags :: os_signals s /\
     flags <> 0 /\
     Z.land flags (Z.lor kReceivedBit (Z.lor kTransmittedBit kErrorBit))
     = flags).
Proof.
  intros H.
  destruct (InterruptHandler_frame s s' H)
    as (Hsrc & _ & Hwb & Hid & Hlen & Hdata & Hdm & _).
  destruct (InterruptHandler_Ok_exact s s' H)
    as (_ & Hsig & _ & _ & _ & _ & _ & Htxe & _).
  repeat match goal with |- _ /\ _ => split end; try assumption.
  - intros it. destruct (uart_it_eqb it UART_IT_TXE) eqn:E.
    + apply uart_it_eqb_eq in E. subst it. rewrite Htxe.
      destruct (_ && _); [discriminate|trivial].
    + rewrite Hsrc; [trivial|]. intros ->. discriminate.
  - rewrite Hsig. destruct (Z.eqb_spec (handler_flags s) 0) as [E|E].
    + left. reflexivity.
    + right. exists (handler_flags s).
      split; [reflexivity|]. split; [exact E|]. apply handler_flags_shape.
Qed.

(** X9.  [Read] hands out the oldest bytes of the receive ring, in
    order, as many as asked for or as there are, and leaves the others;
    apart from the ring and its call to the device manager it changes
    nothing. *)
Theorem Read_takes_the_oldest (count : Z) (s : System) :
  CircularBuffer.wf (read_buffer_ (uart1 s)) ->
  snd (fst (Read count s))
  = firstn (Z.to_nat count) (ring_contents (read_buffer_ (uart1 s))) /\
  ring_contents (read_buffer_ (uart1 (snd (Read count s))))
  = skipn (Z.to_nat count) (ring_contents (read_buffer_ (uart1 s))) /\
  fst (fst (Read count s)) = Z.of_nat (length (snd (fst (Read count s)))) /\
  set_read_buffer_ (read_buffer_ (uart1 s)) (uart1 (snd (Read count s)))
  = uart1 s /\
  huart1 (snd (Read count s)) = huart1 s /\
  os_signals (snd (Read count s)) = os_signals s.
Proof.
  intros Hwf. unfold Read.
  pose proof (ring_Read_takes (read_buffer_ (uart1 s)) count) as Ht.
  pose proof (ring_Read_leaves (read_buffer_ (uart1 s)) count Hwf) as Hv.
  destruct (CircularBuffer.Read _ _) as [bytes rb]. simpl in *.
  destruct (CircularBuffer.IsEmpty rb); simpl;
    (repeat split; try assumption);
    destruct s as [d h irq dm sg]; destruct d; reflexivity.
Qed.

(** X10.  When the handler services a received character and returns,
    the low eight bits of the receive data register are appended to the
    receive ring, behind the bytes already there, unless the ring is
    full, in which case the ring keeps its bytes. *)
Theorem InterruptHandler_stores_the_byte (s : System) :
  serviced s UART_IT_RXNE UART_IT_RXNE = true ->
  serviced s UART_IT_TC UART_IT_TC = false ->
  CircularBuffer.wf (read_buffer_ (uart1 s)) ->
  exists s',
    InterruptHandler s = Ok s' /\
    ring_contents (read_buffer_ (uart1 s'))
    = ring_contents (read_buffer_ (uart1 s))
      ++ (if CircularBuffer.IsFull (read_buffer_ (uart1 s)) then []
          else [Z.land (RDR (huart1 s)) 255]).
Proof.
  intros Hrx Htc Hwf.
  destruct (InterruptHandler_exact s Htc) as (s' & Hs' & _ & _ & Hrb & _).
  exists s'. split; [exact Hs'|].
  rewrite Hrb, Hrx. apply ring_Write_one. exact Hwf.
Qed.

(** X11.  Over any run of an initialised driver, the bytes handed out by
    the [Read] calls, followed by the bytes still in the receive ring,
    are exactly the bytes the handler stored, in the order of their
    arrival: none is lost, repeated or reordered. *)
Theorem received_bytes_come_out_in_order
  (h : UART_HandleTypeDef) (tx_data0 : list Z)
  (tx_length0 tx_progress0 device_id : Z)
  (ops : list operation) (s0 s : System) :
  Initialize device_id (boot h tx_data0 tx_length0 tx_progress0) = Ok s0 ->
  run ops s0 = Ok s ->
  along delivered ops s0 ++ ring_contents (read_buffer_ (uart1 s))
  = along arrived ops s0.
Proof.
  intros Hinit Hrun.
  assert (Hwf : buffers_wf s0).
  { apply (buffers_wf_reachable h tx_data0 tx_length0 tx_progress0 device_id
             s0 s0 Hinit). exists []. reflexivity. }
  rewrite <- (run_rx_stream ops s0 s Hwf Hrun).
  assert (Hrb : read_buffer_ (uart1 s0) = CircularBuffer.create kRxBufferSize).
  { revert Hinit. unfold Initialize.
    destruct (negb _); [discriminate|].
    destruct (device_id =? kIllegalDeviceId); [discriminate|].
    intros H. injection H as <-. reflexivity. }
  rewrite Hrb, ring_create_empty by discriminate. reflexivity.
Qed.

(** X12.  [EnsureTransmission] keeps the bytes on the transmit path and
    their order: what is left of the staging block followed by the
    transmit ring reads the same before and after, and nothing is written
    to the transmit data register. *)
Theorem EnsureTransmission_keeps_the_order (s : System) :
  driver_ok s ->
  staged (EnsureTransmission s)
  ++ ring_contents (write_buffer_ (uart1 (EnsureTransmission s)))
  = staged s ++ ring_contents (write_buffer_ (uart1 s)) /\
  TDR (huart1 (EnsureTransmission s)) = TDR (huart1 s).
Proof.
  intros Hok. split.
  - apply EnsureTransmission_stream. exact Hok.
  - apply EnsureTransmission_TDR.
Qed.

(** X13.  Over any run of an initialised driver, the bytes written to
    the transmit data register, followed by the unsent rest of the
    staging block and by the transmit ring, are exactly the bytes the
    [Write] calls accepted, in the order they were accepted. *)
Theorem written_bytes_go_out_in_order
  (h : UART_HandleTypeDef) (tx_data0 : list Z)
  (tx_length0 tx_progress0 device_id : Z)
  (ops : list operation) (s0 s : System) :
  it_source h UART_IT_TXE = false ->
  Z.of_nat (length tx_data0) = kTxBlockSize ->
  Initialize device_id (boot h tx_data0 tx_length0 tx_progress0) = Ok s0 ->
  run ops s0 = Ok s ->
  rev (TDR (huart1 s)) ++ staged s
  ++ ring_contents (write_buffer_ (uart1 s))
  = rev (TDR h) ++ along accepted ops s0.
Proof.
  intros Hoff Hl Hinit Hrun.
  destruct (Initialize_ok h tx_data0 tx_length0 tx_progress0 device_id s0
              Hoff Hl Hinit) as (Hok & Hstart & _).
  rewrite <- Hstart. apply (run_tx_stream ops s0 s Hok Hrun).
Qed.

(** X14.  After a wake of the task with signal bits S, every bit of S is
    raised in the flag word of the device; in particular, when the wake
    carries the transmitted bit while a transmission is pending and the
    transmit ring is full, the clear of that bit by [EnsureTransmission]
    is followed at once by its being raised again. *)
Theorem Task_turn_raises_the_flags (event : osEvent) (s : System) (n : Z) :
  status event = osEventSignal ->
  0 <= signals event < 2 ^ 32 ->
  Z.testbit (signals event) n = true ->
  Z.testbit (device_flags (device_id_ (uart1 s))
               (devmgr (Task_turn event s))) n = true /\
  (n = 1 ->
   tx_pending_ (uart1 s) = true ->
   CircularBuffer.IsFull (write_buffer_ (uart1 s)) = true ->
   devmgr (Task_turn event s)
   = SetFlags (device_id_ (uart1 s)) (signals event)
     :: ClearFlags (device_id_ (uart1 s)) kTransmittedBit :: devmgr s).
Proof.
  intros Hst Hrange Hbit. unfold Task_turn. rewrite Hst.
  unfold to_uint32. rewrite Z.mod_small by exact Hrange.
  assert (Hid : device_id_ (uart1 (EnsureTransmission s))
                = device_id_ (uart1 s))
    by apply (EnsureTransmission_frame s).
  split.
  - destruct (negb _); cbn -[device_flags Z.testbit];
      rewrite ?Hid; simpl device_flags;
      rewrite Z.eqb_refl, Z.lor_spec, Hbit; apply orb_true_r.
  - intros -> Hp Hf.
    assert (Hcond : negb (Z.land (signals event) kTransmittedBit =? 0) = true).
    { unfold kTransmittedBit. rewrite land_bit_is_zero by lia.
      rewrite Hbit. reflexivity. }
    rewrite Hcond.
    assert (Het : EnsureTransmission s
                  = DeviceManagerClearFlags (device_id_ (uart1 s))
                      kTransmittedBit s)
      by (unfold EnsureTransmission; rewrite Hp, Hf; reflexivity).
    rewrite Het. reflexivity.
Qed.

(** X15.  The task forwards the signal bits of every signal event to the
    device manager once, in the order of the events, and makes no other
    [SetFlags] call; events that are no signals are skipped. *)
Theorem Task_forwards_every_signal (events : list osEvent) (s : System) :
  set_calls (devmgr (Task events s))
  = rev (flat_map forwarded events) ++ set_calls (devmgr s).
Proof.
  unfold Task. revert s. induction events as [|event events IH]; intros s.
  - reflexivity.
  - simpl fold_left. rewrite IH. simpl flat_map.
    rewrite rev_app_distr, <- app_assoc. f_equal.
    unfold Task_turn, forwarded. destruct (status event); try reflexivity.
    destruct (negb _); simpl; rewrite ?set_calls_EnsureTransmission;
      reflexivity.
Qed.

(** X16.  An error bit, once recorded, is returned by every later
    [GetError], whatever the driver has done in between. *)
Theorem recorded_errors_stay (ops : list operation) (s s' : System) (n : Z) :
  run ops s = Ok s' ->
  Z.testbit (error_ (uart1 s)) n = true ->
  Z.testbit (fst (GetError s')) n = true.
Proof.
  revert s. induction ops as [|o ops IH]; simpl; intros s H Hbit.
  - injection H as <-. exact Hbit.
  - destruct (run_op o s) as [s1|] eqn:E; [|discriminate].
    apply (IH s1 H). apply (run_op_error_bits o s s1 n E Hbit).
Qed.

(** X17.  A wake of the task that carries the transmitted bit while
    bytes wait in the transmit ring leaves a transmission pending, with
    the transmit-empty interrupt source enabled; a wake without that bit
    leaves the driver object and the peripheral untouched. *)
Theorem Task_turn_rearms_transmission (event : osEvent) (s : System) :
  driver_ok s ->
  0 < kTxBlockSize ->
  status event = osEventSignal ->
  0 <= signals event < 2 ^ 32 ->
  (Z.testbit (signals event) 1 = true ->
   CircularBuffer.IsEmpty (write_buffer_ (uart1 s)) = false ->
   tx_pending_ (uart1 (Task_turn event s)) = true /\
   it_source (huart1 (Task_turn event s)) UART_IT_TXE = true) /\
  (Z.testbit (signals event) 1 = false ->
   uart1 (Task_turn event s) = uart1 s /\
   huart1 (Task_turn event s) = huart1 s).
Proof.
  intros ((_ & Hwf) & (Hm & _) & _) Hk Hst Hrange. unfold Task_turn.
  rewrite Hst. unfold to_uint32. rewrite Z.mod_small by exact Hrange.
  unfold kTransmittedBit. rewrite land_bit_is_zero by lia.
  rewrite negb_involutive. split.
  - intros -> Hne. simpl.
    pose proof (cb_available_nonempty _ Hwf Hne) as Hav.
    unfold EnsureTransmission.
    destruct (tx_pending_ (uart1 s)) eqn:Ep; simpl.
    + destruct (CircularBuffer.IsFull _); simpl; rewrite Ep, <- Hm; auto.
    + pose proof (cb_Read_length (write_buffer_ (uart1 s)) kTxBlockSize) as Hl.
      destruct (CircularBuffer.Read _ _) as [bytes wb']. simpl in *.
      rewrite (proj2 (Z.ltb_lt 0 (Z.of_nat (length bytes)))) by lia.
      simpl. auto.
  - intros ->. split; reflexivity.
Qed.

End DriverMore.

Transparent CircularBuffer.Read CircularBuffer.Write.

(** ** The further properties on the example board *)

Lemma board_ready_ok : @driver_ok board board_ready.
Proof.
  apply (@Initialize_ok board huart_reset (repeat 0 10%nat) 0 0 42
           board_ready); reflexivity.
Qed.

Lemma board_reload_ok : @driver_ok board board_reload.
Proof.
  apply (@run_ok board send_twelve board_ready board_reload
           board_ready_ok).
  vm_compute. reflexivity.
Qed.

Lemma Initialize_twice_on_board :
  @Initialize board 7 board_last_byte_out = Fatal.
Proof.
  apply (@Initialize_twice_is_fatal board 42 7 board_boot board_ready
           board_last_byte_out).
  - reflexivity.
  - exists last_byte_out. vm_compute. reflexivity.
Defined.

Lemma receiver_armed_on_board :
  it_source (huart1 board_last_byte_out) UART_IT_PE = true /\
  it_source (huart1 board_last_byte_out) UART_IT_ERR = true /\
  it_source (huart1 board_last_byte_out) UART_IT_RXNE = true /\
  USART1_IRQn board_last_byte_out = true /\
  signalThread_ (uart1 board_last_byte_out) = true /\
  device_id_ (uart1 board_last_byte_out) = 42.
Proof.
  apply (@Initialize_arms_the_receiver board 42 board_boot board_ready
           board_last_byte_out).
  - reflexivity.
  - exists last_byte_out. vm_compute. reflexivity.
Defined.

Lemma Write_rejected_on_board :
  fst (@Write board [1; 2; 3] 0 3 board_tx_full) = 0 /\
  snd (@Write board [1; 2; 3] 0 3 board_tx_full) = board_tx_full.
Proof.
  assert (Hwf : CircularBuffer.wf (write_buffer_ (uart1 board_tx_full))).
  { apply (cb_wf_Write (write_buffer_ (uart1 board_backlog))
             (repeat 170 20%nat) 20).
    apply (@buffers_wf_reachable board huart_reset (repeat 0 10%nat) 0 0 42
             board_ready board_backlog).
    - reflexivity.
    - exists [CallWrite (repeat 170 600%nat) 0 600]. reflexivity. }
  destruct (@Write_rejected_is_noop board [1; 2; 3] 0 3 board_tx_full Hwf)
    as [Hfull Hsame].
  assert (Hzero : fst (@Write board [1; 2; 3] 0 3 board_tx_full) = 0)
    by (apply Hfull; vm_compute; reflexivity).
  split; [exact Hzero | exact (Hsame Hzero)].
Defined.

Lemma Write_starts_on_board :
  tx_pending_ (uart1 (snd (@Write board [170] 0 1 board_ready))) = true /\
  it_source (huart1 (snd (@Write board [170] 0 1 board_ready))) UART_IT_TXE
  = true.
Proof.
  apply (@Write_starts_transmission board [170] 0 1 board_ready).
  - exact board_ready_ok.
  - reflexivity.
  - vm_compute. reflexivity.
Defined.

Lemma staging_read_in_bounds_on_board :
  0 <= tx_progress_ (uart1 board_txe)
  < Z.of_nat (length (tx_data_ (uart1 board_txe))) /\
  Z.of_nat (length (tx_data_ (uart1 board_txe))) = @kTxBlockSize board.
Proof.
  apply (@staging_read_in_bounds board huart_reset (repeat 0 10%nat) 0 0 42
           board_ready board_txe).
  - reflexivity.
  - reflexivity.
  - reflexivity.
  - exists [CallWrite [170] 0 1; Hardware (raised [UART_IT_TXE]) 0].
    reflexivity.
  - vm_compute. reflexivity.
  - vm_compute. reflexivity.
Defined.

Lemma parity_error_recorded_on_board :
  exists s',
    @InterruptHandler board board_parity = Ok s' /\
    Z.testbit (error_ (uart1 s')) 0 = true /\
    it_pending (huart1 s') UART_IT_PE = false /\
    exists flags, os_signals s' = flags :: os_signals board_parity /\
                  Z.testbit flags 3 = true.
Proof.
  destruct (@InterruptHandler_records_errors board board_parity eq_refl)
    as (s' & Hs' & Hbits & Hpe & _ & _ & _ & Hsig & _).
  exists s'. split; [exact Hs'|]. split; [|split].
  - rewrite (Hbits 0). vm_compute. reflexivity.
  - apply Hpe. vm_compute. reflexivity.
  - apply Hsig. vm_compute. reflexivity.
Defined.

Lemma spurious_interrupt_on_board :
  @InterruptHandler board board_ready = Ok board_ready.
Proof.
  apply (@spurious_interrupt_is_noop board board_ready); reflexivity.
Defined.

Lemma handler_keeps_away_on_board :
  devmgr board_parity_seen = devmgr board_parity /\
  write_buffer_ (uart1 board_parity_seen) = write_buffer_ (uart1 board_parity).
Proof.
  assert (Hrun : @InterruptHandler board board_parity = Ok board_parity_seen)
    by (vm_compute; reflexivity).
  destruct (@InterruptHandler_keeps_away board board_parity
              board_parity_seen Hrun) as (Hdm & Hwb & _).
  split; [exact Hdm | exact Hwb].
Defined.

Lemma board_received_wf :
  CircularBuffer.wf (read_buffer_ (uart1 board_received)).
Proof.
  apply (@buffers_wf_reachable board huart_reset (repeat 0 10%nat) 0 0 42
           board_ready board_received).
  - reflexivity.
  - exists [Hardware (raised [UART_IT_RXNE]) 65; Interrupt].
    vm_compute. reflexivity.
Qed.

Lemma Read_takes_the_oldest_on_board :
  snd (fst (Read 1 board_received))
  = firstn (Z.to_nat 1) (ring_contents (read_buffer_ (uart1 board_received))) /\
  ring_contents (read_buffer_ (uart1 (snd (Read 1 board_received))))
  = skipn (Z.to_nat 1) (ring_contents (read_buffer_ (uart1 board_received))).
Proof.
  destruct (Read_takes_the_oldest 1 board_received board_received_wf)
    as (Htake & Hleave & _).
  split; [exact Htake | exact Hleave].
Defined.

Lemma byte_stored_on_board :
  exists s',
    @InterruptHandler board board_byte_in = Ok s' /\
    ring_contents (read_buffer_ (uart1 s'))
    = ring_contents (read_buffer_ (uart1 board_byte_in))
      ++ (if CircularBuffer.IsFull (read_buffer_ (uart1 board_byte_in))
          then [] else [Z.land (RDR (huart1 board_byte_in)) 255]).
Proof.
  apply (@InterruptHandler_stores_the_byte board board_byte_in).
  - reflexivity.
  - reflexivity.
  - apply (@buffers_wf_reachable board huart_reset (repeat 0 10%nat) 0 0 42
             board_ready board_byte_in).
    + reflexivity.
    + exists [Hardware (raised [UART_IT_RXNE]) 65]. reflexivity.
Defined.

Lemma received_in_order_on_board :
  @along board delivered two_bytes_in board_ready
  ++ ring_contents (read_buffer_ (uart1 board_two_bytes))
  = @along board arrived two_bytes_in board_ready.
Proof.
  apply (@received_bytes_come_out_in_order board huart_reset
           (repeat 0 10%nat) 0 0 42 two_bytes_in board_ready board_two_bytes).
  - reflexivity.
  - vm_compute. reflexivity.
Defined.

Lemma reload_keeps_the_order_on_board :
  staged (@EnsureTransmission board board_reload)
  ++ ring_contents
       (write_buffer_ (uart1 (@EnsureTransmission board board_reload)))
  = staged board_reload ++ ring_contents (write_buffer_ (uart1 board_reload)) /\
  TDR (huart1 (@EnsureTransmission board board_reload))
  = TDR (huart1 board_reload).
Proof.
  apply (@EnsureTransmission_keeps_the_order board board_reload).
  exact board_reload_ok.
Defined.

Lemma written_in_order_on_board :
  rev (TDR (huart1 board_reloaded)) ++ staged board_reloaded
  ++ ring_contents (write_buffer_ (uart1 board_reloaded))
  = rev (TDR huart_reset) ++ @along board (@accepted board) send_and_reload
                               board_ready.
Proof.
  apply (@written_bytes_go_out_in_order board huart_reset (repeat 0 10%nat)
           0 0 42 send_and_reload board_ready board_reloaded).
  - reflexivity.
  - reflexivity.
  - reflexivity.
  - vm_compute. reflexivity.
Defined.

Lemma backpressure_overridden_on_board :
  Z.testbit (device_flags (device_id_ (uart1 board_tx_full))
               (devmgr (@Task_turn board transmitted_event board_tx_full))) 1
  = true /\
  devmgr (@Task_turn board transmitted_event board_tx_full)
  = SetFlags (device_id_ (uart1 board_tx_full)) (signals transmitted_event)
    :: ClearFlags (device_id_ (uart1 board_tx_full)) kTransmittedBit
    :: devmgr board_tx_full.
Proof.
  assert (Hrange : 0 <= signals transmitted_event < 2 ^ 32)
    by (vm_compute; split; congruence).
  destruct (@Task_turn_raises_the_flags board transmitted_event board_tx_full
              1 eq_refl Hrange eq_refl) as [Hbit Hlog].
  split; [exact Hbit|]. apply Hlog.
  - reflexivity.
  - vm_compute. reflexivity.
  - vm_compute. reflexivity.
Defined.

Lemma recorded_errors_stay_on_board :
  Z.testbit
    (fst (GetError
            (or_else (@run board [CallGetError; CallRead 1] board_parity_seen)
                     board_parity_seen))) 0 = true.
Proof.
  apply (@recorded_errors_stay board [CallGetError; CallRead 1]
           board_parity_seen).
  - vm_compute. reflexivity.
  - vm_compute. reflexivity.
Defined.

Lemma Task_turn_rearms_on_board :
  tx_pending_ (uart1 (@Task_turn board transmitted_event board_reload)) = true /\
  it_source (huart1 (@Task_turn board transmitted_event board_reload))
    UART_IT_TXE = true.
Proof.
  assert (Hrange : 0 <= signals transmitted_event < 2 ^ 32)
    by (vm_compute; split; congruence).
  destruct (@Task_turn_rearms_transmission board transmitted_event
              board_reload board_reload_ok eq_refl eq_refl Hrange)
    as [Hrearm _].
  apply Hrearm.
  - reflexivity.
  - vm_compute. reflexivity.
Defined.

(** ** The driver at start, and how much it buffers *)

Lemma cb_capacity_Read (b : CircularBuffer.t) (n : Z) :
  CircularBuffer.capacity (snd (CircularBuffer.Read b n))
  = CircularBuffer.capacity b.
Proof. reflexivity. Qed.

Lemma cb_capacity_Write (b : CircularBuffer.t) (data : list Z) (count : Z) :
  CircularBuffer.capacity (snd (CircularBuffer.Write b data count))
  = CircularBuffer.capacity b.
Proof. reflexivity. Qed.

Lemma ring_contents_length (b : CircularBuffer.t) :
  CircularBuffer.wf b ->
  Z.of_nat (length (ring_contents b)) <= CircularBuffer.capacity b.
Proof.
  intros Hwf. pose proof (cb_available_range b Hwf) as Ha.
  unfold ring_contents. rewrite length_map, length_seq. lia.
Qed.

Lemma cb_Write_no_room (b : CircularBuffer.t) (data : list Z) (count : Z) :
  CircularBuffer.remaining b <= 0 ->
  fst (CircularBuffer.Write b data count) = 0.
Proof.
  intros Hr. unfold CircularBuffer.Write. simpl.
  replace (Z.to_nat (CircularBuffer.remaining b)) with 0%nat by lia.
  rewrite Nat.min_0_r. reflexivity.
Qed.

Lemma ring_contents_available (b : CircularBuffer.t) :
  CircularBuffer.wf b ->
  Z.of_nat (length (ring_contents b)) = CircularBuffer.available b.
Proof.
  intros Hwf. pose proof (cb_available_range b Hwf) as Ha.
  unfold ring_contents. rewrite length_map, length_seq. lia.
Qed.

Lemma staged_length `{Platform} (s : System) :
  Z.of_nat (length (tx_data_ (uart1 s))) = kTxBlockSize ->
  Z.of_nat (length (staged s)) <= kTxBlockSize.
Proof.
  intros Hl. unfold staged. destruct (tx_pending_ (uart1 s)); simpl; [|lia].
  rewrite length_skipn, length_firstn. lia.
Qed.

Opaque CircularBuffer.Read CircularBuffer.Write.

Section DriverBounds.

Context {P : Platform}.

Lemma EnsureTransmission_capacity (s : System) :
  CircularBuffer.capacity (write_buffer_ (uart1 (EnsureTransmission s)))
  = CircularBuffer.capacity (write_buffer_ (uart1 s)).
Proof.
  unfold EnsureTransmission. destruct (tx_pending_ (uart1 s)); simpl.
  - destruct (CircularBuffer.IsFull _); reflexivity.
  - pose proof (cb_capacity_Read (write_buffer_ (uart1 s)) kTxBlockSize) as Hc.
    destruct (CircularBuffer.Read _ _) as [bytes wb]. simpl in *.
    destruct (0 <? _); exact Hc.
Qed.

Lemma run_op_capacity (o : operation) (s s' : System) :
  run_op o s = Ok s' ->
  CircularBuffer.capacity (read_buffer_ (uart1 s'))
  = CircularBuffer.capacity (read_buffer_ (uart1 s)) /\
  CircularBuffer.capacity (write_buffer_ (uart1 s'))
  = CircularBuffer.capacity (write_buffer_ (uart1 s)).
Proof.
  assert (Hrb : forall s1, read_buffer_ (uart1 (EnsureTransmission s1))
                           = read_buffer_ (uart1 s1)).
  { intros s1. apply (EnsureTransmission_frame s1). }
  destruct o; simpl; intros H; try (injection H as <-).
  - unfold Read.
    pose proof (cb_capacity_Read (read_buffer_ (uart1 s)) count) as Hc.
    destruct (CircularBuffer.Read _ _) as [bytes rb]. simpl in *.
    destruct (CircularBuffer.IsEmpty rb); split; trivial.
  - unfold Write.
    pose proof (cb_capacity_Write (write_buffer_ (uart1 s))
                  (skipn (Z.to_nat offset) buffer) count) as Hc.
    destruct (CircularBuffer.Write _ _ _) as [n wb]. simpl in *.
    destruct (0 <? n);
      [rewrite Hrb, EnsureTransmission_capacity|]; split; trivial.
  - split; reflexivity.
  - unfold Task_turn. destruct (status event); try (split; reflexivity).
    destruct (negb _); simpl;
      [rewrite Hrb, EnsureTransmission_capacity|]; split; reflexivity.
  - rewrite Hrb, EnsureTransmission_capacity. split; reflexivity.
  - destruct (InterruptHandler_frame s s' H) as (_ & _ & Hwb & _).
    destruct (InterruptHandler_Ok_exact s s' H) as (_ & _ & Hrb' & _).
    rewrite Hwb, Hrb'. split; [|reflexivity].
    destruct (serviced s UART_IT_RXNE UART_IT_RXNE);
      [apply cb_capacity_Write|reflexivity].
  - split; reflexivity.
Qed.

Lemma run_capacity (ops : list operation) (s s' : System) :
  run ops s = Ok s' ->
  CircularBuffer.capacity (read_buffer_ (uart1 s'))
  = CircularBuffer.capacity (read_buffer_ (uart1 s)) /\
  CircularBuffer.capacity (write_buffer_ (uart1 s'))
  = CircularBuffer.capacity (write_buffer_ (uart1 s)).
Proof.
  revert s. induction ops as [|o ops IH]; simpl; intros s H.
  - injection H as <-. split; reflexivity.
  - destruct (run_op o s) as [s1|] eqn:E; [|discriminate].
    destruct (run_op_capacity o s s1 E) as [H1 H2].
    destruct (IH s1 H) as [G1 G2].
    rewrite G1, G2, H1, H2. split; reflexivity.
Qed.

(** X18.  On a freshly constructed driver, [Initialize] with the illegal
    device id is fatal, and with any other id it succeeds and leaves a
    driver with no error recorded, both rings empty, no transmission
    pending, the transmit-empty source as the peripheral had it, and no
    call made to the device manager or signal sent; so [GetError] then
    returns 0 and [Read] returns no byte. *)
Theorem Initialize_of_a_fresh_driver
  (h : UART_HandleTypeDef) (tx_data0 : list Z)
  (tx_length0 tx_progress0 device_id : Z) :
  Initialize kIllegalDeviceId (boot h tx_data0 tx_length0 tx_progress0)
  = Fatal /\
  (device_id <> kIllegalDeviceId ->
   exists s0,
     Initialize device_id (boot h tx_data0 tx_length0 tx_progress0) = Ok s0 /\
     fst (GetError s0) = 0 /\
     ring_contents (read_buffer_ (uart1 s0)) = [] /\
     ring_contents (write_buffer_ (uart1 s0)) = [] /\
     tx_pending_ (uart1 s0) = false /\
     it_source (huart1 s0) UART_IT_TXE = it_source h UART_IT_TXE /\
     devmgr s0 = [] /\
     os_signals s0 = [] /\
     (forall count, fst (Read count s0) = (0, []))).
Proof.
  split.
  - apply Initialize_fatal_iff. right. reflexivity.
  - intros Hlegal. unfold Initialize. simpl device_id_.
    rewrite Z.eqb_refl. simpl negb. cbv iota.
    destruct (Z.eqb_spec device_id kIllegalDeviceId) as [E|_];
      [contradiction|].
    eexists. split; [reflexivity|]. simpl.
    rewrite !ring_create_empty by discriminate.
    repeat split.
    intros count. unfold Read. simpl.
    pose proof (cb_Read_empty (CircularBuffer.create kRxBufferSize) count
                  eq_refl) as He.
    destruct (CircularBuffer.Read _ _) as [bytes rb]. simpl in *.
    rewrite He. reflexivity.
Qed.

Lemma Initialize_capacity (device_id : Z) (s s0 : System) :
  Initialize device_id s = Ok s0 ->
  read_buffer_ (uart1 s0) = read_buffer_ (uart1 s) /\
  write_buffer_ (uart1 s0) = write_buffer_ (uart1 s).
Proof.
  unfold Initialize.
  destruct (negb _); [discriminate|].
  destruct (device_id =? kIllegalDeviceId); [discriminate|].
  intros H. injection H as <-. split; reflexivity.
Qed.

(** X19.  The driver buffers a bounded number of bytes in each
    direction.  Over any run of an initialised driver, the bytes that
    [Write] calls accepted and that have not yet been written to the
    transmit data register number at most [kTxBlockSize + kTxBufferSize],
    and the bytes that the handler stored and that no [Read] has returned
    yet number at most [kRxBufferSize]; when the first bound is reached,
    [Write] accepts nothing. *)
Theorem unsent_bytes_are_bounded
  (h : UART_HandleTypeDef) (tx_data0 : list Z)
  (tx_length0 tx_progress0 device_id : Z)
  (ops : list operation) (s0 s : System) :
  it_source h UART_IT_TXE = false ->
  Z.of_nat (length tx_data0) = kTxBlockSize ->
  Initialize device_id (boot h tx_data0 tx_length0 tx_progress0) = Ok s0 ->
  run ops s0 = Ok s ->
  Z.of_nat (length (along accepted ops s0)) + Z.of_nat (length (TDR h))
  <= Z.of_nat (length (TDR (huart1 s))) + kTxBlockSize + kTxBufferSize /\
  Z.of_nat (length (along arrived ops s0))
  <= Z.of_nat (length (along delivered ops s0)) + kRxBufferSize /\
  (Z.of_nat (length (along accepted ops s0)) + Z.of_nat (length (TDR h))
   = Z.of_nat (length (TDR (huart1 s))) + kTxBlockSize + kTxBufferSize ->
   forall buffer offset count, fst (Write buffer offset count s) = 0).
Proof.
  intros Hoff Hl Hinit Hrun.
  destruct (Initialize_ok h tx_data0 tx_length0 tx_progress0 device_id s0
              Hoff Hl Hinit) as (Hok & Hstart & Hrx0).
  pose proof (run_ok ops s0 s Hok Hrun) as ((Hrwf & Hwwf) & _ & Hblock).
  pose proof (run_tx_stream ops s0 s Hok Hrun) as Htx.
  pose proof (run_rx_stream ops s0 s (proj1 Hok) Hrun) as Hrx.
  rewrite Hstart in Htx. rewrite Hrx0 in Hrx. simpl in Hrx.
  unfold tx_stream in Htx.
  apply (f_equal (@length Z)) in Htx. apply (f_equal (@length Z)) in Hrx.
  rewrite !length_app, !length_rev in Htx. rewrite length_app in Hrx.
  destruct (run_capacity ops s0 s Hrun) as [Hcr Hcw].
  destruct (Initialize_capacity _ _ _ Hinit) as [Hr0 Hw0].
  rewrite Hr0 in Hcr. rewrite Hw0 in Hcw. simpl in Hcr, Hcw.
  pose proof (ring_contents_available _ Hrwf) as Har.
  pose proof (ring_contents_available _ Hwwf) as Haw.
  pose proof (cb_available_range _ Hrwf) as Hbr.
  pose proof (cb_available_range _ Hwwf) as Hbw.
  pose proof (staged_length s Hblock) as Hst.
  rewrite Hcr in Hbr. rewrite Hcw in Hbw.
  split; [lia|]. split; [lia|].
  intros Hfull buffer offset count. unfold Write.
  pose proof (cb_Write_no_room (write_buffer_ (uart1 s))
                (skipn (Z.to_nat offset) buffer) count) as Hno.
  destruct (CircularBuffer.Write _ _ _) as [n wb]. simpl in *.
  apply Hno. unfold CircularBuffer.remaining. lia.
Qed.

End DriverBounds.

Transparent CircularBuffer.Read CircularBuffer.Write.

Lemma Initialize_fresh_on_board :
  exists s0,
    @Initialize board 42 (@boot board huart_reset (repeat 0 10%nat) 0 0)
    = Ok s0 /\
    fst (GetError s0) = 0 /\
    ring_contents (read_buffer_ (uart1 s0)) = [] /\
    ring_contents (write_buffer_ (uart1 s0)) = [] /\
    tx_pending_ (uart1 s0) = false /\
    it_source (huart1 s0) UART_IT_TXE = it_source huart_reset UART_IT_TXE /\
    devmgr s0 = [] /\
    os_signals s0 = [] /\
    (forall count, fst (Read count s0) = (0, [])).
Proof.
  apply (@Initialize_of_a_fresh_driver board huart_reset (repeat 0 10%nat)
           0 0 42).
  discriminate.
Defined.

Lemma unsent_bytes_bounded_on_board :
  Z.of_nat (length (@along board (@accepted board) two_writes board_ready))
  = 521 /\
  Z.of_nat (length (TDR (huart1 board_two_writes))) = 0 /\
  Z.of_nat (length (@along board (@accepted board) two_writes board_ready))
  + Z.of_nat (length (TDR huart_reset))
  <= Z.of_nat (length (TDR (huart1 board_two_writes)))
     + @kTxBlockSize board + kTxBufferSize /\
  fst (@Write board [1; 2; 3] 0 3 board_two_writes) = 0.
Proof.
  assert (Hsum : Z.of_nat (length (@along board (@accepted board) two_writes
                                     board_ready)) = 521)
    by (vm_compute; reflexivity).
  assert (Hout : Z.of_nat (length (TDR (huart1 board_two_writes))) = 0)
    by (vm_compute; reflexivity).
  assert (Hrun : @run board two_writes board_ready = Ok board_two_writes)
    by (vm_compute; reflexivity).
  destruct (@unsent_bytes_are_bounded board huart_reset (repeat 0 10%nat)
              0 0 42 two_writes board_ready board_two_writes
              eq_refl eq_refl eq_refl Hrun) as (Hbound & _ & Hstop).
  split; [exact Hsum|]. split; [exact Hout|]. split; [exact Hbound|].
  apply Hstop. rewrite Hsum, Hout. reflexivity.
Defined.
